(** * byoapi: the nation-scoped CRUD layer of the War Thunder API server

    A shallow embedding of the Express handlers that [mountCRUDForCategory]
    installs for every vehicle category (the generic server), and of the
    aircraft-only handlers of [server.js], together with the helpers they
    call.  JavaScript values are embedded as a small dynamically typed value
    type, objects used as dictionaries as finite maps, arrays as lists.

    Conventions of the embedding:
    - a number is an exact rational, [NaN] or an infinity; rounding and
      overflow of IEEE doubles are not modelled;
    - a string is a sequence of 8-bit characters; white space and letter
      case are those of ASCII;
    - the field values of a record are JSON scalars;
    - property reads see own properties only, so a nation name is never one
      of the member names of [Object.prototype]; the keys and values of an
      object are listed in the order of the map, not in insertion order, and
      nothing proved here depends on that order;
    - a query parameter is the string the request gives for it, if any;
    - requests are handled one at a time: no other handler runs while one
      waits for its save;
    - [saveJSON] touches nothing but the file system: a handler depends on it
      through the boolean it returns, which is an input of the embedded
      handler. *)

From Stdlib Require Import ZArith QArith Qcanon Ascii String List Lia Bool.
From Stdlib Require Import DecimalString DecimalPos.
From stdpp Require Import gmap strings list fin_maps.

Local Open Scope string_scope.
Local Open Scope list_scope.
Local Open Scope Z_scope.

(** ** JavaScript values *)

Module JS.

Inductive number :=
  | Fin (q : Q)
  | NaN
  | PosInf
  | NegInf.

Inductive value :=
  | VUndefined
  | VNull
  | VBool (b : bool)
  | VNum (n : number)
  | VStr (s : string).

Definition of_Z (z : Z) : number := Fin (inject_Z z).

(** ToBoolean *)
Definition truthy (v : value) : bool :=
  match v with
  | VUndefined | VNull => false
  | VBool b => b
  | VNum (Fin q) => negb (Qeq_bool q 0)
  | VNum NaN => false
  | VNum _ => true
  | VStr s => negb (String.eqb s "")
  end.

(** [a || b] *)
Definition or_else (a b : value) : value := if truthy a then a else b.

Definition typeof (v : value) : string :=
  match v with
  | VUndefined => "undefined"
  | VNull => "object"
  | VBool _ => "boolean"
  | VNum _ => "number"
  | VStr _ => "string"
  end.

Definition number_eq (a b : number) : bool :=
  match a, b with
  | Fin p, Fin q => Qeq_bool p q
  | PosInf, PosInf | NegInf, NegInf => true
  | _, _ => false
  end.

(** [a === b] *)
Definition strict_eq (a b : value) : bool :=
  match a, b with
  | VUndefined, VUndefined | VNull, VNull => true
  | VBool x, VBool y => Bool.eqb x y
  | VNum x, VNum y => number_eq x y
  | VStr x, VStr y => String.eqb x y
  | _, _ => false
  end.

(** [a < b] on numbers; every comparison with [NaN] is false. *)
Definition number_lt (a b : number) : bool :=
  match a, b with
  | NaN, _ | _, NaN => false
  | Fin p, Fin q => negb (Qle_bool q p)
  | NegInf, NegInf | PosInf, _ => false
  | NegInf, _ => true
  | Fin _, PosInf => true
  | Fin _, NegInf => false
  end.

Definition number_add (a b : number) : number :=
  match a, b with
  | NaN, _ | _, NaN => NaN
  | Fin p, Fin q => Fin (Qred (p + q))
  | PosInf, NegInf | NegInf, PosInf => NaN
  | PosInf, _ | _, PosInf => PosInf
  | NegInf, _ | _, NegInf => NegInf
  end.

Definition number_neg (a : number) : number :=
  match a with
  | Fin q => Fin (Qred (- q))
  | NaN => NaN
  | PosInf => NegInf
  | NegInf => PosInf
  end.

(** One step of [Math.max]: [NaN] is absorbing. *)
Definition max2 (a b : number) : number :=
  match a, b with
  | NaN, _ | _, NaN => NaN
  | _, _ => if number_lt a b then b else a
  end.

(** [Math.max(...l)]; the maximum of no arguments is [-Infinity]. *)
Definition Math_max (l : list number) : number := fold_left max2 l NegInf.

(** *** Characters and strings *)

Definition code (c : ascii) : Z := Z.of_N (N_of_ascii c).

Definition is_ws (c : ascii) : bool :=
  let n := code c in ((9 <=? n) && (n <=? 13)) || (n =? 32).

Definition chars := list ascii.

Fixpoint drop_while (f : ascii -> bool) (l : chars) : chars :=
  match l with
  | c :: r => if f c then drop_while f r else l
  | [] => []
  end.

(** [s.trim()] and the one-sided trim of [parseInt] *)
Definition trim_start (l : chars) : chars := drop_while is_ws l.
Definition trim_chars (l : chars) : chars :=
  rev (drop_while is_ws (rev (drop_while is_ws l))).
Definition trim (s : string) : string :=
  string_of_list_ascii (trim_chars (list_ascii_of_string s)).

Definition lower (c : ascii) : ascii :=
  let n := code c in
  if (65 <=? n) && (n <=? 90) then ascii_of_N (Z.to_N (n + 32)) else c.

Fixpoint toLowerCase (s : string) : string :=
  match s with
  | EmptyString => EmptyString
  | String c r => String (lower c) (toLowerCase r)
  end.

(** [hay.includes(needle)] *)
Fixpoint includes (hay needle : string) : bool :=
  if String.prefix needle hay then true
  else match hay with
       | EmptyString => false
       | String _ r => includes r needle
       end.

(** *** Numeric literals *)

(** The value of a digit character, letters counting from ten. *)
Definition digit_value (c : ascii) : option Z :=
  let n := code c in
  if (48 <=? n) && (n <=? 57) then Some (n - 48)
  else if (97 <=? n) && (n <=? 102) then Some (n - 87)
  else if (65 <=? n) && (n <=? 70) then Some (n - 55)
  else None.

Definition digit_in (radix : Z) (c : ascii) : option Z :=
  match digit_value c with
  | Some d => if d <? radix then Some d else None
  | None => None
  end.

(** The longest prefix of digits of the radix: its value, its length and
    what follows it. *)
Fixpoint read_digits (radix acc : Z) (cnt : nat) (l : chars) : Z * nat * chars :=
  match l with
  | c :: r =>
      match digit_in radix c with
      | Some d => read_digits radix (acc * radix + d) (S cnt) r
      | None => (acc, cnt, l)
      end
  | [] => (acc, cnt, [])
  end.

Definition chars_eqb (a b : chars) : bool :=
  String.eqb (string_of_list_ascii a) (string_of_list_ascii b).

(** A literal in radix 2, 8 or 16, after its prefix: digits only, at least
    one. *)
Definition non_decimal (radix : Z) (l : chars) : number :=
  match read_digits radix 0 0 l with
  | (v, S _, []) => of_Z v
  | _ => NaN
  end.

(** ExponentPart, or nothing: the exponent when the rest of the literal is
    well formed. *)
Definition exponent_part (l : chars) : option Z :=
  match l with
  | [] => Some 0
  | c :: r =>
      if (code c =? 101) || (code c =? 69) then
        let '(neg, r') :=
          match r with
          | s :: t => if code s =? 45 then (true, t)
                      else if code s =? 43 then (false, t) else (false, r)
          | [] => (false, r)
          end in
        match read_digits 10 0 0 r' with
        | (e, S _, []) => Some (if neg then - e else e)
        | _ => None
        end
      else None
  end.

(** StrUnsignedDecimalLiteral *)
Definition unsigned_decimal (l : chars) : number :=
  if chars_eqb l (list_ascii_of_string "Infinity") then PosInf
  else
    let '(ip, n1, r1) := read_digits 10 0 0 l in
    let '(fp, n2, r2) :=
      match r1 with
      | c :: r => if code c =? 46 then read_digits 10 0 0 r else (0, 0%nat, r1)
      | [] => (0, 0%nat, r1)
      end in
    if (n1 + n2 =? 0)%nat then NaN
    else
      match exponent_part r2 with
      | Some e =>
          let scale := 10 ^ Z.of_nat n2 in
          Fin (Qred (inject_Z (ip * scale + fp) / inject_Z scale
                     * Qpower (inject_Z 10) e))
      | None => NaN
      end.

(** NonDecimalIntegerLiteral: [0x], [0o] or [0b] and digits, without a
    sign; [None] when the string has no such prefix. *)
Definition non_decimal_literal (l : chars) : option number :=
  match l with
  | c :: x :: t =>
      if code c =? 48 then
        if (code x =? 120) || (code x =? 88) then Some (non_decimal 16 t)
        else if (code x =? 111) || (code x =? 79) then Some (non_decimal 8 t)
        else if (code x =? 98) || (code x =? 66) then Some (non_decimal 2 t)
        else None
      else None
  | _ => None
  end.

(** StrDecimalLiteral: an unsigned decimal literal after an optional sign *)
Definition signed_decimal (l : chars) : number :=
  match l with
  | c :: r =>
      if code c =? 45 then number_neg (unsigned_decimal r)
      else if code c =? 43 then unsigned_decimal r
      else unsigned_decimal l
  | [] => unsigned_decimal l
  end.

(** StringToNumber: the argument of [Number(s)], so of [isNaN(s)]. *)
Definition string_to_number (s : string) : number :=
  let l := trim_chars (list_ascii_of_string s) in
  match l with
  | [] => of_Z 0
  | _ =>
      match non_decimal_literal l with
      | Some n => n
      | None => signed_decimal l
      end
  end.

(** ToNumber *)
Definition to_number (v : value) : number :=
  match v with
  | VUndefined => NaN
  | VNull => of_Z 0
  | VBool b => of_Z (if b then 1 else 0)
  | VNum n => n
  | VStr s => string_to_number s
  end.

(** [isNaN(s)] for a string [s] *)
Definition isNaN (s : string) : bool :=
  match string_to_number s with
  | NaN => true
  | _ => false
  end.

(** The sign [parseInt] takes off the front, and the rest. *)
Definition split_sign (l : chars) : bool * chars :=
  match l with
  | c :: r => if code c =? 45 then (true, r)
              else if code c =? 43 then (false, r) else (false, l)
  | [] => (false, l)
  end.

(** Radix 16 after [0x] or [0X], radix 10 otherwise. *)
Definition strip_prefix (l : chars) : Z * chars :=
  match l with
  | c :: x :: r =>
      if (code c =? 48) && ((code x =? 120) || (code x =? 88))
      then (16, r) else (10, l)
  | _ => (10, l)
  end.

(** The digits [parseInt] reads: the longest prefix, at least one digit. *)
Definition parse_magnitude (l : chars) : option Z :=
  let '(radix, l2) := strip_prefix l in
  match read_digits radix 0 0 l2 with
  | (_, O, _) => None
  | (v, S _, _) => Some v
  end.

(** [parseInt(s)] without a radix: [None] stands for [NaN]. *)
Definition parseInt (s : string) : option Z :=
  let '(neg, l1) := split_sign (trim_start (list_ascii_of_string s)) in
  (fun v => if neg then - v else v) <$> parse_magnitude l1.

Definition number_of_parse (o : option Z) : number :=
  match o with
  | Some z => of_Z z
  | None => NaN
  end.

(** [l.slice(start, end)] *)
Definition slice {A} (l : list A) (first last : Z) : list A :=
  let len := Z.of_nat (length l) in
  let clamp i := if i <? 0 then Z.max (len + i) 0 else Z.min i len in
  let k := clamp first in
  let final := clamp last in
  take (Z.to_nat (Z.max (final - k) 0)) (drop (Z.to_nat k) l).

(** [l.findIndex(f)]: [None] stands for [-1]. *)
Fixpoint findIndex {A} (f : A -> bool) (l : list A) : option nat :=
  match l with
  | [] => None
  | x :: r => if f x then Some 0%nat else S <$> findIndex f r
  end.

(** [l.find(f)] *)
Fixpoint find {A} (f : A -> bool) (l : list A) : option A :=
  match l with
  | [] => None
  | x :: r => if f x then Some x else find f r
  end.

(** [l.splice(i, 1)] leaves [delete i l]; [l.splice(i, 0, x)]: *)
Definition splice_in {A} (i : nat) (x : A) (l : list A) : list A :=
  take i l ++ x :: drop i l.

(** [l.pop()] leaves: *)
Definition pop {A} (l : list A) : list A := take (length l - 1)%nat l.

End JS.

(** ** The data cache *)

(** A vehicle record is a JSON object; reading a property that is not there
    yields [undefined]. *)
Abbreviation record := (gmap string JS.value).

Definition get (o : record) (k : string) : JS.value :=
  default JS.VUndefined (o !! k).

(** One category's document: nation code to the ordered list of its
    records. *)
Abbreviation collection := (gmap string (list record)).

(** [dataCache.vehicles]: category name to its document.  A category whose
    file could not be loaded holds [null]; it has no entry here. *)
Abbreviation vehicles := (gmap string collection).

(** [Object.keys(o)] and [Object.values(o)] *)
Definition keys {A} (o : gmap string A) : list string := (map_to_list o).*1.
Definition values {A} (o : gmap string A) : list A := (map_to_list o).*2.

Definition filePathForCategory : gmap string string :=
  list_to_map
    [("aircraft", "data/vehicles/aviation/aircraft.json");
     ("helicopters", "data/vehicles/aviation/helicopters.json");
     ("tanks", "data/vehicles/ground/tanks.json");
     ("bluewater", "data/vehicles/naval/bluewater.json");
     ("coastal", "data/vehicles/naval/coastal.json")].

Definition idFieldForCategory : gmap string string :=
  list_to_map
    [("aircraft", "aircraftid");
     ("helicopters", "helicopterid");
     ("tanks", "tankid");
     ("bluewater", "shipid");
     ("coastal", "shipid")].

(** The categories the server mounts. *)
Definition mounted : list string :=
  ["aircraft"; "helicopters"; "tanks"; "bluewater"; "coastal"].

(** [idFieldForCategory[category]] used as a property name: the name of a
    category outside the table is [undefined], whose property name is the
    word itself. *)
Definition idField_of (category : string) : string :=
  default "undefined" (idFieldForCategory !! category).

(** [category.slice(0, -1)] *)
Definition singular (category : string) : string :=
  string_of_list_ascii (JS.slice (list_ascii_of_string category) 0 (-1)).

(** ** Responses *)

Inductive details :=
  | DNull
  | DText (s : string)
  | DErrors (errors : list string)
  | DAvailable (available_nations : list string)
  (** the duplicate notice, a template over the id field, the submitted id
      and the nation *)
  | DDuplicate (idField : string) (incomingId : JS.value) (nation : string).

Inductive payload :=
  | PError (message : string) (d : details)
  | PItem (item : record)
  | PNation (nation : string) (count : nat) (items : list record)
  | PPage (total page limit totalPages : Z) (items : list record)
  | PNone.

Record response := Response { status : Z; body : payload }.

(** ** Helpers *)

(** [i => i.id || 0], as the number [Math.max] takes the result for *)
Definition id_or_zero (i : record) : JS.number :=
  JS.to_number (JS.or_else (get i "id") (JS.VNum (JS.of_Z 0))).

(** Generate next numeric ID for a nation in a given category. *)
Definition getNextIdForCategory (dataCache : vehicles) (category nation : string)
  : JS.number :=
  let collection := default ∅ (dataCache !! category) in
  let nationItems := default [] (collection !! nation) in
  if (length nationItems =? 0)%nat then JS.of_Z 1
  else JS.number_add (JS.Math_max (map id_or_zero nationItems)) (JS.of_Z 1).

(** [!v || typeof v !== 'string' || v.trim() === ''] *)
Definition not_a_filled_string (v : JS.value) : bool :=
  negb (JS.truthy v)
  || negb (String.eqb (JS.typeof v) "string")
  || match v with
     | JS.VStr s => String.eqb (JS.trim s) ""
     | _ => false
     end.

(** [a < b] where one side is a number *)
Definition value_lt (a b : JS.value) : bool :=
  JS.number_lt (JS.to_number a) (JS.to_number b).

Definition num (z : Z) : JS.value := JS.VNum (JS.of_Z z).

Definition is_number (v : JS.value) : bool := String.eqb (JS.typeof v) "number".
Definition defined (v : JS.value) : bool := negb (JS.strict_eq v JS.VUndefined).

Definition rank_violated (data : record) : bool :=
  let rank := get data "rank" in
  defined rank && (negb (is_number rank) || value_lt rank (num 1) || value_lt (num 8) rank).

Definition br_violated (data : record) : bool :=
  let br := get data "br" in
  defined br && (negb (is_number br) || value_lt br (num 1) || value_lt (num 15) br).

Definition crew_violated (data : record) : bool :=
  let crew := get data "crew" in
  defined crew && (negb (is_number crew) || value_lt crew (num 1)).

Definition rank_message := "rank must be a number between 1 and 8".
Definition br_message := "br (battle rating) must be a number between 1.0 and 15.0".
Definition crew_message := "crew must be a positive number".
Definition name_message := "name is required and must be a non-empty string".

Definition push_if (b : bool) (message : string) (errors : list string) : list string :=
  if b then errors ++ [message] else errors.

(** Generic validation for create/update.  For create: require idField and
    name.  For update: optional but validate types (rank, br, crew). *)
Definition validateGenericData (category : string) (data : record) (isUpdate : bool)
  : list string :=
  let idField := default "id_field" (idFieldForCategory !! category) in
  let errors := [] in
  let errors :=
    if isUpdate then errors
    else
      let errors :=
        push_if (not_a_filled_string (get data idField))
                (idField +:+ " is required and must be a non-empty string") errors in
      push_if (not_a_filled_string (get data "name")) name_message errors in
  let errors := push_if (rank_violated data) rank_message errors in
  let errors := push_if (br_violated data) br_message errors in
  let errors := push_if (crew_violated data) crew_message errors in
  errors.

(** ** Identifier resolution *)

(** [isNumeric ? parseInt(identifier) : identifier] *)
Definition searchId (identifier : string) : JS.value :=
  let isNumeric := negb (JS.isNaN identifier) in
  if isNumeric then JS.VNum (JS.number_of_parse (JS.parseInt identifier))
  else JS.VStr identifier.

(** [i => i[idField] === identifier || i.id === searchId] *)
Definition resolves (idField identifier : string) (i : record) : bool :=
  JS.strict_eq (get i idField) (JS.VStr identifier)
  || JS.strict_eq (get i "id") (searchId identifier).





(** ** Search and pagination of the flattened list *)

(** [v && v.toLowerCase().includes(query)], as the condition it is used for;
    [None] when the call throws (a truthy value that is no string has no
    [toLowerCase]). *)
Definition field_includes (v : JS.value) (query : string) : option bool :=
  if JS.truthy v then
    match v with
    | JS.VStr s => Some (JS.includes (JS.toLowerCase s) query)
    | _ => None
    end
  else Some false.

(** [a || b] on conditions that may throw *)
Definition or_throw (a : option bool) (b : option bool) : option bool :=
  match a with
  | Some true => Some true
  | Some false => b
  | None => None
  end.

(** [l.filter(f)] for a callback that may throw *)
Fixpoint filter_throw {A} (f : A -> option bool) (l : list A) : option (list A) :=
  match l with
  | [] => Some []
  | x :: r =>
      match f x with
      | None => None
      | Some b =>
          match filter_throw f r with
          | None => None
          | Some r' => Some (if b then x :: r' else r')
          end
      end
  end.

(** [parseInt(param) || fallback]; an absent parameter is [undefined]. *)
Definition parse_or (param : option string) (fallback : Z) : Z :=
  match JS.parseInt (default "undefined" param) with
  | Some z => if z =? 0 then fallback else z
  | None => fallback
  end.

Definition effective_page (page : option string) : Z := Z.max 1 (parse_or page 1).
Definition effective_limit (limit : option string) : Z :=
  Z.min 100 (Z.max 1 (parse_or limit 50)).

(** [Math.ceil(total / limit)] for a positive limit *)
Definition ceil_div (total limit : Z) : Z := - ((- total) / limit).

(** The slice of page [page] under limit [limit]. *)
Definition page_slice {A} (allItems : list A) (page limit : Z) : list A :=
  let startIndex := (page - 1) * limit in
  JS.slice allItems startIndex (startIndex + limit).

Definition paginate (allItems : list record) (page limit : option string) : response :=
  let p := effective_page page in
  let l := effective_limit limit in
  let paginated := page_slice allItems p l in
  Response 200
    (PPage (Z.of_nat (length allItems)) p l
           (ceil_div (Z.of_nat (length allItems)) l) paginated).

(** The records a list response carries. *)
Definition page_items (r : option response) : list record :=
  match r with
  | Some (Response _ (PPage _ _ _ _ items)) => items
  | _ => []
  end.


(** ** The route factory: nation-scoped CRUD endpoints of a category

    Every handler takes the cache and gives back its response and the cache
    it leaves.  [saved] is what [saveJSON] returns to the handler. *)

Module mountCRUDForCategory.

Definition not_loaded (category : string) : response :=
  Response 500 (PError (category +:+ " data not loaded") DNull).

Definition nation_not_found (nation : string) : response :=
  Response 404 (PError ("Nation not found: " +:+ nation) DNull).

(** The optional search of GET all: the flattened list, filtered when a
    query is given; [None] when the search callback throws. *)
Definition search (category : string) (dataCache : vehicles) (q : option string)
  : option (list record) :=
  let collection := default ∅ (dataCache !! category) in
  let allItems := concat (values collection) in
  match q with
  | Some q' =>
      if JS.truthy (JS.VStr q') then
        let query := JS.toLowerCase q' in
        filter_throw
          (fun i =>
             or_throw (field_includes (get i "name") query)
               (or_throw (field_includes (get i (idField_of category)) query)
                  (field_includes (get i "nation") query)))
          allItems
      else Some allItems
  | None => Some allItems
  end.

(** GET all (flattened) with optional search + pagination *)
Definition get_all (category : string) (dataCache : vehicles)
    (q page limit : option string) : option response :=
  match search category dataCache q with
  | Some allItems => Some (paginate allItems page limit)
  | None => None
  end.

(** GET by nation *)
Definition get_by_nation (category : string) (dataCache : vehicles) (nation : string)
  : response :=
  match dataCache !! category with
  | None => not_loaded category
  | Some collection =>
      match collection !! nation with
      | None =>
          Response 404
            (PError ("No " +:+ category +:+ " found for nation: " +:+ nation)
                    (DAvailable (keys collection)))
      | Some nationItems => Response 200 (PNation nation (length nationItems) nationItems)
      end
  end.

(** GET specific by nation + id or numeric id *)
Definition get_one (category : string) (dataCache : vehicles)
    (nation identifier : string) : response :=
  match dataCache !! category with
  | None => not_loaded category
  | Some collection =>
      match collection !! nation with
      | None => nation_not_found nation
      | Some nationItems =>
          let idField := idField_of category in
          match JS.find (resolves idField identifier) nationItems with
          | None =>
              Response 404
                (PError (singular category +:+ " not found with identifier: " +:+ identifier)
                        (DText ("Use either " +:+ idField +:+ " (string) or numeric id")))
          | Some item => Response 200 (PItem item)
          end
      end
  end.

(** [{ id: getNextIdForCategory(category, nation), nation, ...req.body }]:
    the properties of the body are copied last. *)
Definition newItem (dataCache : vehicles) (category nation : string) (body : record)
  : record :=
  body ∪ <["nation" := JS.VStr nation]>
           (<["id" := JS.VNum (getNextIdForCategory dataCache category nation)]> ∅).

(** POST - create new in nation *)
Definition post (category : string) (dataCache : vehicles) (nation : string)
    (body : record) (saved : bool) : response * vehicles :=
  match dataCache !! category with
  | None => (not_loaded category, dataCache)
  | Some collection =>
      let collection :=
        match collection !! nation with
        | None => <[nation := []]> collection
        | Some _ => collection
        end in
      let dataCache := <[category := collection]> dataCache in
      let nationItems := default [] (collection !! nation) in
      let idField := idField_of category in
      let incomingId := get body idField in
      let name := get body "name" in
      if not_a_filled_string incomingId || not_a_filled_string name then
        (Response 400
           (PError "Missing required fields"
              (DText ("Both '" +:+ idField
                      +:+ "' and 'name' are required and must be non-empty strings"))),
         dataCache)
      else
        match JS.find (fun i => JS.strict_eq (get i idField) incomingId) nationItems with
        | Some _ =>
            (Response 409
               (PError (singular category +:+ " already exists")
                       (DDuplicate idField incomingId nation)),
             dataCache)
        | None =>
            let item := newItem dataCache category nation body in
            let pushed := (nationItems ++ [item]) in
            if saved then
              (Response 201 (PItem item),
               <[category := <[nation := pushed]> collection]> dataCache)
            else
              (Response 500 (PError ("Failed to save " +:+ category) DNull),
               <[category := <[nation := JS.pop pushed]> collection]> dataCache)
        end
  end.

(** [{ ...old, ...req.body, id: old.id, nation: old.nation,
       [idField]: old[idField] }] *)
Definition updated (idField : string) (old body : record) : record :=
  <[idField := get old idField]>
    (<["nation" := get old "nation"]>
       (<["id" := get old "id"]> (body ∪ old))).

(** PATCH - update *)
Definition patch (category : string) (dataCache : vehicles)
    (nation identifier : string) (body : record) (saved : bool) : response * vehicles :=
  match dataCache !! category ≫= (fun collection => (collection,.) <$> collection !! nation) with
  | None => (nation_not_found nation, dataCache)
  | Some (collection, nationItems) =>
      let validationErrors := validateGenericData category body true in
      if (0 <? length validationErrors)%nat then
        (Response 400 (PError "Validation failed" (DErrors validationErrors)), dataCache)
      else
        let idField := idField_of category in
        match JS.findIndex (resolves idField identifier) nationItems with
        | None =>
            (Response 404
               (PError (singular category +:+ " not found with identifier: " +:+ identifier)
                       DNull),
             dataCache)
        | Some index =>
            let old := default ∅ (nationItems !! index) in
            let original := old in
            let item := updated idField old body in
            let written := <[index := item]> nationItems in
            if saved then
              (Response 200 (PItem item),
               <[category := <[nation := written]> collection]> dataCache)
            else
              (Response 500 (PError ("Failed to update " +:+ singular category) DNull),
               <[category := <[nation := <[index := original]> written]> collection]>
                 dataCache)
        end
  end.

(** DELETE - remove item *)
Definition delete (category : string) (dataCache : vehicles)
    (nation identifier : string) (saved : bool) : response * vehicles :=
  match dataCache !! category ≫= (fun collection => (collection,.) <$> collection !! nation) with
  | None => (nation_not_found nation, dataCache)
  | Some (collection, nationItems) =>
      let idField := idField_of category in
      match JS.findIndex (resolves idField identifier) nationItems with
      | None =>
          (Response 404
             (PError (singular category +:+ " not found with identifier: " +:+ identifier)
                     DNull),
           dataCache)
      | Some index =>
          let deleted := default ∅ (nationItems !! index) in
          let spliced := base.delete index nationItems in
          if saved then
            (Response 204 PNone,
             <[category := <[nation := spliced]> collection]> dataCache)
          else
            (Response 500 (PError ("Failed to delete " +:+ singular category) DNull),
             <[category := <[nation := JS.splice_in index deleted spliced]> collection]>
               dataCache)
      end
  end.

End mountCRUDForCategory.

(** ** The aircraft routes of [server.js]

    The earlier server has the CRUD endpoints for aircraft only, written out
    by hand.  A handler that throws sends no response of its own: its
    response is [None]. *)

Module Aircraft.

Definition category := "aircraft".

(** Generate next ID for a nation's aircraft *)
Definition getNextAircraftId (dataCache : vehicles) (nation : string) : JS.number :=
  let nationAircraft := default [] (default ∅ (dataCache !! category) !! nation) in
  if (length nationAircraft =? 0)%nat then JS.of_Z 1
  else JS.number_add (JS.Math_max (map id_or_zero nationAircraft)) (JS.of_Z 1).

(** Validate aircraft data *)
Definition validateAircraftData (data : record) (isUpdate : bool) : list string :=
  let errors := [] in
  let errors :=
    if isUpdate then errors
    else
      let errors :=
        push_if (not_a_filled_string (get data "aircraftid"))
                "aircraftid is required and must be a non-empty string" errors in
      push_if (not_a_filled_string (get data "name")) name_message errors in
  let errors := push_if (rank_violated data) rank_message errors in
  let errors := push_if (br_violated data) br_message errors in
  let errors := push_if (crew_violated data) crew_message errors in
  errors.

Definition not_loaded : response :=
  Response 500 (PError "Aircraft data not loaded" DNull).

Definition nation_not_found (nation : string) : response :=
  Response 404 (PError ("Nation not found: " +:+ nation) DNull).

(** [v?.toLowerCase().includes(query)] as a condition *)
Definition chained_includes (v : JS.value) (query : string) : option bool :=
  match v with
  | JS.VUndefined | JS.VNull => Some false
  | JS.VStr s => Some (JS.includes (JS.toLowerCase s) query)
  | _ => None
  end.

(** The search of GET all aircraft; [Object.values] throws on the [null] of
    a document that is not loaded. *)
Definition search (dataCache : vehicles) (q : option string) : option (list record) :=
  match dataCache !! category with
  | None => None
  | Some aircraft =>
      let allAircraft := concat (values aircraft) in
      match q with
      | Some searchQuery =>
          if JS.truthy (JS.VStr searchQuery) then
            let query := JS.toLowerCase searchQuery in
            filter_throw
              (fun a =>
                 or_throw (chained_includes (get a "name") query)
                   (or_throw (chained_includes (get a "aircraftid") query)
                      (chained_includes (get a "nation") query)))
              allAircraft
          else Some allAircraft
      | None => Some allAircraft
      end
  end.

(** GET all aircraft (with pagination and search) *)
Definition get_all (dataCache : vehicles) (q page limit : option string)
  : option response :=
  match search dataCache q with
  | Some allAircraft => Some (paginate allAircraft page limit)
  | None => None
  end.

(** GET aircraft by nation *)
Definition get_by_nation (dataCache : vehicles) (nation : string) : response :=
  match dataCache !! category with
  | None => not_loaded
  | Some aircraft =>
      match aircraft !! nation with
      | None =>
          Response 404
            (PError ("No aircraft found for nation: " +:+ nation)
                    (DAvailable (keys aircraft)))
      | Some nationAircraft =>
          Response 200 (PNation nation (length nationAircraft) nationAircraft)
      end
  end.

(** GET specific aircraft *)
Definition get_one (dataCache : vehicles) (nation identifier : string) : response :=
  match dataCache !! category ≫= (fun aircraft => aircraft !! nation) with
  | None => nation_not_found nation
  | Some nationAircraft =>
      match JS.find (resolves "aircraftid" identifier) nationAircraft with
      | None =>
          Response 404
            (PError ("Aircraft not found with identifier: " +:+ identifier)
               (DText "Use either aircraftid (e.g., 'p-26a-34m2') or numeric id (e.g., '1')"))
      | Some aircraft => Response 200 (PItem aircraft)
      end
  end.

(** [{ id: getNextAircraftId(nation), aircraftid, name, nation, ...req.body }] *)
Definition newAircraft (dataCache : vehicles) (nation : string) (body : record) : record :=
  body ∪ <["nation" := JS.VStr nation]>
           (<["name" := get body "name"]>
              (<["aircraftid" := get body "aircraftid"]>
                 (<["id" := JS.VNum (getNextAircraftId dataCache nation)]> ∅))).

Definition missing_fields (text : string) : response :=
  Response 400 (PError "Missing required fields" (DText text)).

(** POST - Create new aircraft *)
Definition post (dataCache : vehicles) (nation : string) (body : record) (saved : bool)
  : option response * vehicles :=
  match dataCache !! category with
  | None => (Some not_loaded, dataCache)
  | Some aircraft =>
      let aircraft :=
        match aircraft !! nation with
        | None => <[nation := []]> aircraft
        | Some _ => aircraft
        end in
      let dataCache := <[category := aircraft]> dataCache in
      let nationAircraft := default [] (aircraft !! nation) in
      let aircraftid := get body "aircraftid" in
      let name := get body "name" in
      if negb (JS.truthy aircraftid) || negb (JS.truthy name) then
        (Some (missing_fields "Both 'aircraftid' and 'name' are required"), dataCache)
      else
        (* aircraftid.trim() === '' || name.trim() === '' *)
        let blank :=
          match aircraftid with
          | JS.VStr a =>
              if String.eqb (JS.trim a) "" then Some true
              else match name with
                   | JS.VStr n => Some (String.eqb (JS.trim n) "")
                   | _ => None
                   end
          | _ => None
          end in
        match blank with
        | None => (None, dataCache)
        | Some true =>
            (Some (missing_fields "Both 'aircraftid' and 'name' must be non-empty"),
             dataCache)
        | Some false =>
            match JS.find (fun a => JS.strict_eq (get a "aircraftid") aircraftid)
                          nationAircraft with
            | Some _ =>
                (Some (Response 409
                         (PError "Aircraft already exists"
                                 (DDuplicate "aircraftid" aircraftid nation))),
                 dataCache)
            | None =>
                let item := newAircraft dataCache nation body in
                let pushed := (nationAircraft ++ [item]) in
                let dataCache := <[category := <[nation := pushed]> aircraft]> dataCache in
                if saved then (Some (Response 201 (PItem item)), dataCache)
                else (Some (Response 500 (PError "Failed to save aircraft" DNull)), dataCache)
            end
        end
  end.

(** [{ ...old, ...req.body, id: old.id, nation: old.nation,
       aircraftid: old.aircraftid }] *)
Definition updatedAircraft (old body : record) : record :=
  <["aircraftid" := get old "aircraftid"]>
    (<["nation" := get old "nation"]>
       (<["id" := get old "id"]> (body ∪ old))).

Definition aircraft_not_found (identifier : string) : response :=
  Response 404 (PError ("Aircraft not found with identifier: " +:+ identifier) DNull).

(** PATCH - Update aircraft *)
Definition patch (dataCache : vehicles) (nation identifier : string) (body : record)
    (saved : bool) : response * vehicles :=
  match dataCache !! category ≫= (fun aircraft => (aircraft,.) <$> aircraft !! nation) with
  | None => (nation_not_found nation, dataCache)
  | Some (aircraft, nationAircraft) =>
      let validationErrors := validateAircraftData body true in
      if (0 <? length validationErrors)%nat then
        (Response 400 (PError "Validation failed" (DErrors validationErrors)), dataCache)
      else
        match JS.findIndex (resolves "aircraftid" identifier) nationAircraft with
        | None => (aircraft_not_found identifier, dataCache)
        | Some aircraftIndex =>
            let originalAircraft := default ∅ (nationAircraft !! aircraftIndex) in
            let item := updatedAircraft originalAircraft body in
            let written := <[aircraftIndex := item]> nationAircraft in
            if saved then
              (Response 200 (PItem item),
               <[category := <[nation := written]> aircraft]> dataCache)
            else
              (Response 500 (PError "Failed to update aircraft" DNull),
               <[category :=
                   <[nation := <[aircraftIndex := originalAircraft]> written]> aircraft]>
                 dataCache)
        end
  end.

(** DELETE - Remove aircraft *)
Definition delete (dataCache : vehicles) (nation identifier : string) (saved : bool)
  : response * vehicles :=
  match dataCache !! category ≫= (fun aircraft => (aircraft,.) <$> aircraft !! nation) with
  | None => (nation_not_found nation, dataCache)
  | Some (aircraft, nationAircraft) =>
      match JS.findIndex (resolves "aircraftid" identifier) nationAircraft with
      | None => (aircraft_not_found identifier, dataCache)
      | Some aircraftIndex =>
          let deletedAircraft := default ∅ (nationAircraft !! aircraftIndex) in
          let spliced := base.delete aircraftIndex nationAircraft in
          if saved then
            (Response 204 PNone,
             <[category := <[nation := spliced]> aircraft]> dataCache)
          else
            (Response 500 (PError "Failed to delete aircraft" DNull),
             <[category :=
                 <[nation := JS.splice_in aircraftIndex deletedAircraft spliced]> aircraft]>
               dataCache)
      end
  end.

End Aircraft.

(** ** Nation routes (read only) *)

Module Nations.

Inductive answer :=
  | Failed (status : Z) (message : string) (d : details)
  | Listed (nations : list record)
  | Found (nation : record).

Definition not_loaded : answer := Failed 500 "Nations data not loaded" DNull.

(** GET /api/nations; [dataCache.nations] is [None] when the file could not
    be loaded. *)
Definition get_all (nations : option (list record)) : answer :=
  match nations with
  | None => not_loaded
  | Some l => Listed l
  end.

(** GET /api/nations/:id *)
Definition get_one (nations : option (list record)) (id : string) : answer :=
  match nations with
  | None => not_loaded
  | Some l =>
      match JS.find (fun n => JS.strict_eq (get n "id") (JS.VStr id)) l with
      | None => Failed 404 "Nation not found" (DText ("Nation '" +:+ id +:+ "' does not exist"))
      | Some nation => Found nation
      end
  end.

End Nations.

(** ** Overview endpoints

    Each overview reads its documents with [Object.values], which throws on
    the [null] of a document that is not loaded: the answer is then [None]. *)

Module Overview.

(** [{ ...a, type: t }] *)
Definition typed (t : string) (a : record) : record := <["type" := JS.VStr t]> a.

(** [Object.values(document).flat()] *)
Definition flat (document : collection) : list record := concat (values document).

Record aviation_answer := Aviation {
  aviation_total : nat;
  aircraft_count : nat;
  helicopter_count : nat;
  vehicles_listed : list record
}.

(** Aviation overview - combined aircraft + helicopters *)
Definition aviation (dataCache : vehicles) : option aviation_answer :=
  match dataCache !! "aircraft", dataCache !! "helicopters" with
  | Some aircraft, Some helicopters =>
      let combined_aircraft := map (typed "aircraft") (flat aircraft) in
      let combined_helicopters := map (typed "helicopter") (flat helicopters) in
      Some (Aviation (length combined_aircraft + length combined_helicopters)
                     (length combined_aircraft) (length combined_helicopters)
                     (combined_aircraft ++ combined_helicopters))
  | _, _ => None
  end.

Record naval_answer := Naval {
  naval_total : nat;
  bluewater_count : nat;
  coastal_count : nat;
  ships : list record
}.

(** Naval overview - combined bluewater + coastal *)
Definition naval (dataCache : vehicles) : option naval_answer :=
  match dataCache !! "bluewater", dataCache !! "coastal" with
  | Some bluewater, Some coastal =>
      let allBluewater := map (typed "bluewater") (flat bluewater) in
      let allCoastal := map (typed "coastal") (flat coastal) in
      Some (Naval (length allBluewater + length allCoastal)
                  (length allBluewater) (length allCoastal)
                  (allBluewater ++ allCoastal))
  | _, _ => None
  end.

Record ground_answer := Ground { ground_total : nat; tanks : list record }.

(** Ground overview - tanks *)
Definition ground (dataCache : vehicles) : option ground_answer :=
  match dataCache !! "tanks" with
  | Some tanks => let allTanks := flat tanks in Some (Ground (length allTanks) allTanks)
  | None => None
  end.

Record all_answer := All {
  all_total : nat;
  aviation_count : nat;
  ground_count : nat;
  naval_count : nat;
  data_aircraft : list record;
  data_helicopters : list record;
  data_tanks : list record;
  data_bluewater : list record;
  data_coastal : list record
}.

(** All vehicles overview *)
Definition all (dataCache : vehicles) : option all_answer :=
  match dataCache !! "aircraft", dataCache !! "helicopters", dataCache !! "tanks",
        dataCache !! "bluewater", dataCache !! "coastal" with
  | Some aircraft, Some helicopters, Some tanks, Some bluewater, Some coastal =>
      let allAircraft := flat aircraft in
      let allHelicopters := flat helicopters in
      let allTanks := flat tanks in
      let allBluewater := flat bluewater in
      let allCoastal := flat coastal in
      Some (All (length allAircraft + length allHelicopters + length allTanks
                 + length allBluewater + length allCoastal)
                (length allAircraft + length allHelicopters)
                (length allTanks)
                (length allBluewater + length allCoastal)
                allAircraft allHelicopters allTanks allBluewater allCoastal)
  | _, _, _, _, _ => None
  end.

End Overview.

(** ** Loading and saving documents

    The file system is a map from paths to the text of the files.  What a
    call of [fs] does to it is decided outside the server: a write succeeds,
    or fails and leaves at its path nothing new or some text of its own; a
    rename of a file that is there succeeds, moving the file over its target
    in one step, or fails and changes nothing.  [stringify] and [parse] stand
    for [JSON.stringify(data, null, 2)] and [JSON.parse] on documents;
    [parse] gives [None] where [JSON.parse] throws. *)

Module Store.

Abbreviation files := (gmap string string).

Inductive write_outcome :=
  | Written
  | WriteFailed (left : option string).

(** [fs.writeFile(path, text)]: whether it returned, and the file system it
    leaves. *)
Definition writeFile (fs : files) (path text : string) (o : write_outcome)
  : bool * files :=
  match o with
  | Written => (true, <[path := text]> fs)
  | WriteFailed None => (false, fs)
  | WriteFailed (Some junk) => (false, <[path := junk]> fs)
  end.

(** [fs.rename(from, to)] *)
Definition rename (fs : files) (from to : string) (succeeds : bool) : bool * files :=
  match fs !! from with
  | Some text =>
      if succeeds then (true, <[to := text]> (base.delete from fs)) else (false, fs)
  | None => (false, fs)
  end.

(** [path.join(__dirname, filePath)] for the relative paths of the server *)
Definition fullPath (dirname filePath : string) : string :=
  dirname +:+ "/" +:+ filePath.

(** Save JSON data to file safely: the result, and the file system left. *)
Definition saveJSON {A} (stringify : A -> string) (dirname : string) (fs : files)
    (filePath : string) (data : A) (o : write_outcome) (renames : bool)
  : bool * files :=
  let tempPath := fullPath dirname filePath +:+ ".tmp" in
  match writeFile fs tempPath (stringify data) o with
  | (true, fs1) =>
      match rename fs1 tempPath (fullPath dirname filePath) renames with
      | (true, fs2) => (true, fs2)
      | (false, fs2) => (false, fs2)
      end
  | (false, fs1) => (false, fs1)
  end.

(** Safely load and parse JSON files: [None] is the [null] of a file that
    is not there or does not parse. *)
Definition loadJSON {A} (parse : string -> option A) (dirname : string) (fs : files)
    (filePath : string) : option A :=
  fs !! fullPath dirname filePath ≫= parse.

(** What [preloadData] stores in [dataCache.vehicles] under a category. *)
Definition loaded (category : string) (document : option collection)
    (cache : vehicles) : vehicles :=
  match document with
  | Some c => <[category := c]> cache
  | None => base.delete category cache
  end.

(** Load all data files into cache on startup: the nations and the
    vehicles. *)
Definition preloadData (parse_nations : string -> option (list record))
    (parse : string -> option collection) (dirname : string) (fs : files)
  : option (list record) * vehicles :=
  let nations := loadJSON parse_nations dirname fs "data/nations/nations.json" in
  let cache : vehicles := ∅ in
  let cache :=
    loaded "aircraft" (loadJSON parse dirname fs "data/vehicles/aviation/aircraft.json")
           cache in
  let cache :=
    loaded "helicopters"
           (loadJSON parse dirname fs "data/vehicles/aviation/helicopters.json") cache in
  let cache :=
    loaded "tanks" (loadJSON parse dirname fs "data/vehicles/ground/tanks.json") cache in
  let cache :=
    loaded "bluewater" (loadJSON parse dirname fs "data/vehicles/naval/bluewater.json")
           cache in
  let cache :=
    loaded "coastal" (loadJSON parse dirname fs "data/vehicles/naval/coastal.json")
           cache in
  (nations, cache).

End Store.

(** The id fields of a list, in list order. *)
Definition id_fields (idField : string) (items : list record) : list JS.value :=
  (fun i => get i idField) <$> items.

(** The search condition of the flattened list, for records whose name, id
    field and nation are strings or falsy. *)
Definition matches (idField query : string) (i : record) : bool :=
  let found v :=
    JS.truthy v
    && match v with
       | JS.VStr s => JS.includes (JS.toLowerCase s) query
       | _ => false
       end in
  found (get i "name") || found (get i idField) || found (get i "nation").

(** The count a list-by-nation response reports, and the total of a
    flattened list response. *)
Definition nation_count (r : response) : nat :=
  match r with
  | Response _ (PNation _ count _) => count
  | _ => 0%nat
  end.

Definition page_total (r : option response) : Z :=
  match r with
  | Some (Response _ (PPage total _ _ _ _)) => total
  | _ => 0
  end.

(** A field the search can read: a string, or a falsy value. *)
Definition searchable (v : JS.value) : bool :=
  match v with
  | JS.VStr _ => true
  | _ => negb (JS.truthy v)
  end.

(** ** Traces of a create *)

(** What a create leaves behind when the save fails, or when the request
    is turned down: the cache it found, with the nation initialised. *)
Definition nation_initialised (category nation : string) (dataCache : vehicles)
  : vehicles :=
  match dataCache !! category with
  | Some collection =>
      match collection !! nation with
      | Some _ => dataCache
      | None => <[category := <[nation := []]> collection]> dataCache
      end
  | None => dataCache
  end.

(** ** Fixtures *)

Module Fixture.

Definition p26 : record :=
  list_to_map
    [("id", num 1); ("aircraftid", JS.VStr "p-26a-34m2");
     ("name", JS.VStr "P-26A-34 M2"); ("nation", JS.VStr "usa");
     ("rank", num 1); ("br", num 1)].

Definition p51 : record :=
  list_to_map
    [("id", num 2); ("aircraftid", JS.VStr "p-51d-5");
     ("name", JS.VStr "P-51D-5 Mustang"); ("nation", JS.VStr "usa");
     ("rank", num 3); ("br", num 4)].

Definition bf109 : record :=
  list_to_map
    [("id", num 1); ("aircraftid", JS.VStr "bf-109-e1");
     ("name", JS.VStr "Bf 109 E-1"); ("nation", JS.VStr "germany")].

(** A cache with the aircraft document loaded: two nations with records and
    one with an empty list. *)
Definition aircraft_document : collection :=
  list_to_map [("usa", [p26; p51]); ("germany", [bf109]); ("japan", [])].

Definition cache : vehicles := {[ "aircraft" := aircraft_document ]}.

Definition raptor : record :=
  list_to_map
    [("aircraftid", JS.VStr "f-22-raptor"); ("name", JS.VStr "F-22 Raptor");
     ("rank", num 8); ("br", num 13)].

(** A create body that also carries [id] and [nation]. *)
Definition raptor_with_keys : record :=
  <["nation" := JS.VStr "germany"]> (<["id" := num 999]> raptor).

(** A create body with a rank outside 1..8 and a crew that is no number. *)
Definition raptor_out_of_range : record :=
  <["crew" := JS.VStr "two"]> (<["rank" := num 99]> raptor).

(** An update body that tries to change the three key fields. *)
Definition rekey : record :=
  list_to_map
    [("id", num 77); ("nation", JS.VStr "ussr"); ("aircraftid", JS.VStr "other");
     ("br", JS.VNum (JS.Fin (133 # 10)))].

End Fixture.

(** A cache with the five documents loaded, the nations list, and a file
    system holding an earlier aircraft document. *)
Module Fleet.

Definition apache : record :=
  list_to_map
    [("id", num 1); ("helicopterid", JS.VStr "ah-64a"); ("name", JS.VStr "AH-64A Apache");
     ("nation", JS.VStr "usa"); ("type", JS.VStr "attack")].

Definition sherman : record :=
  list_to_map
    [("id", num 1); ("tankid", JS.VStr "m4a1"); ("name", JS.VStr "M4A1 Sherman");
     ("nation", JS.VStr "usa")].

Definition cache : vehicles :=
  list_to_map
    [("aircraft", Fixture.aircraft_document);
     ("helicopters", {[ "usa" := [apache] ]});
     ("tanks", {[ "usa" := [sherman] ]});
     ("bluewater", ∅);
     ("coastal", ∅)].

Definition usa : record :=
  list_to_map [("id", JS.VStr "usa"); ("name", JS.VStr "United States")].

Definition germany : record :=
  list_to_map [("id", JS.VStr "germany"); ("name", JS.VStr "Germany")].

Definition nations : list record := [usa; germany].


(** A printer and a parser that know the empty document only. *)
Definition stringify (c : collection) : string := "{}".
Definition parse (text : string) : option collection :=
  if String.eqb text "{}" then Some ∅ else None.
Definition parse_nations (text : string) : option (list record) :=
  if String.eqb text "[]" then Some [] else None.

End Fleet.

(** ** Arrays *)

(** Closes an equation between closed terms by evaluating both sides. *)
Ltac evaluate :=
  lazymatch goal with
  | |- @eq ?T ?a ?b => vm_cast_no_check (@eq_refl T b)
  end.

(** Splits a conjunction into its parts, and nothing else. *)
Ltac parts := repeat apply conj.

Section Arrays.
Context {A : Type}.
Implicit Types (l : list A) (f : A -> bool).

Lemma pop_push l x : JS.pop (l ++ [x]) = l.
Proof.
  unfold JS.pop. rewrite length_app. simpl.
  replace (length l + 1 - 1)%nat with (length l) by lia.
  apply take_app_length.
Qed.

Lemma splice_in_delete l i x :
  l !! i = Some x -> JS.splice_in i x (base.delete i l) = l.
Proof.
  intros Hx. unfold JS.splice_in.
  pose proof (lookup_lt_Some _ _ _ Hx) as Hi.
  rewrite delete_take_drop.
  rewrite take_app_le by (rewrite length_take; lia).
  rewrite take_take, Nat.min_id.
  rewrite drop_app_length' by (rewrite length_take; lia).
  by apply take_drop_middle.
Qed.

Lemma insert_back l i x y :
  l !! i = Some x -> <[i := x]> (<[i := y]> l) = l.
Proof.
  intros Hx. rewrite list_insert_insert_eq. by apply list_insert_id.
Qed.

Lemma findIndex_Some f l i :
  JS.findIndex f l = Some i ->
  exists x, l !! i = Some x /\ f x = true
            /\ forall j y, (j < i)%nat -> l !! j = Some y -> f y = false.
Proof.
  revert i. induction l as [|a l IH]; intros i; simpl; [done|].
  destruct (f a) eqn:Ha.
  - intros [= <-]. exists a. repeat split; [done|]. intros j y Hj. lia.
  - destruct (JS.findIndex f l) as [k|] eqn:Hk; [|done].
    simpl. intros [= <-]. destruct (IH k eq_refl) as (x & Hx & Hfx & Hbefore).
    exists x. repeat split; [done..|].
    intros [|j] y Hj; simpl.
    + by intros [= <-].
    + apply Hbefore. lia.
Qed.

Lemma findIndex_None f l :
  JS.findIndex f l = None <-> forall x, x ∈ l -> f x = false.
Proof.
  induction l as [|a l IH]; simpl.
  - split; [|done]. intros _ x Hx. by apply elem_of_nil in Hx.
  - destruct (f a) eqn:Ha.
    + split; [done|]. intros H. specialize (H a (list_elem_of_here _ _)). congruence.
    + destruct (JS.findIndex f l) eqn:Hk; simpl.
      * split; [done|]. intros H.
        assert (forall x, x ∈ l -> f x = false) as H'
          by (intros x Hx; apply H; by right).
        apply IH in H'. done.
      * split; [|done]. intros _ x Hx. apply elem_of_cons in Hx as [->|Hx]; [done|].
        by apply IH.
Qed.

(** [find] returns the element [findIndex] points at. *)
Lemma find_findIndex f l : JS.find f l = JS.findIndex f l ≫= (l !!.).
Proof.
  induction l as [|a l IH]; simpl; [done|].
  destruct (f a); [done|]. rewrite IH. by destruct (JS.findIndex f l).
Qed.

(** The first match in list order, and nothing else, is what [find]
    returns. *)
Lemma find_first f l x :
  JS.find f l = Some x <->
  exists before after,
    l = before ++ x :: after /\ f x = true /\ forall y, y ∈ before -> f y = false.
Proof.
  induction l as [|a l IH]; simpl.
  - split; [done|]. intros (before & after & H & _). by destruct before.
  - destruct (f a) eqn:Ha.
    + split.
      * intros [= <-]. exists [], l. repeat split; [done|]. intros y Hy.
        by apply elem_of_nil in Hy.
      * intros (before & after & H & Hx & Hb). destruct before as [|b before].
        -- by injection H as -> _.
        -- injection H as -> _. specialize (Hb b (list_elem_of_here _ _)). congruence.
    + rewrite IH. split.
      * intros (before & after & -> & Hx & Hb). exists (a :: before), after.
        repeat split; [done|]. intros y Hy.
        apply elem_of_cons in Hy as [->|Hy]; [done|]. by apply Hb.
      * intros (before & after & H & Hx & Hb). destruct before as [|b before].
        -- injection H as -> _. congruence.
        -- injection H as -> ->. exists before, after. repeat split; [done|].
           intros y Hy. apply Hb. by right.
Qed.

Lemma find_None f l : JS.find f l = None <-> forall x, x ∈ l -> f x = false.
Proof.
  rewrite find_findIndex, <- findIndex_None.
  destruct (JS.findIndex f l) as [i|] eqn:Hi; simpl; [|done].
  apply findIndex_Some in Hi as (x & -> & _). done.
Qed.
End Arrays.

(** ** Rollback after a failed save *)

Section Rollback.
Implicit Types (dataCache : vehicles) (body : record).

Ltac open_nation dataCache category nation :=
  let collection := fresh "collection" in
  let items := fresh "items" in
  let Hc := fresh "Hcollection" in
  let Hn := fresh "Hnation" in
  destruct (dataCache !! category) as [collection|] eqn:Hc; simpl; [|done];
  destruct (collection !! nation) as [items|] eqn:Hn; simpl; [|done].

Ltac close_cache :=
  repeat match goal with
         | H : ?m !! ?k = Some ?v |- context [<[?k := ?v]> ?m] =>
             rewrite (insert_id m k v H)
         end.

(** A failed update leaves the cache as it found it. *)
Lemma patch_failed_save_restores category dataCache nation identifier body :
  (mountCRUDForCategory.patch category dataCache nation identifier body false).2
  = dataCache.
Proof.
  unfold mountCRUDForCategory.patch. open_nation dataCache category nation.
  destruct (0 <? length _)%nat; [done|].
  destruct (JS.findIndex _ items) as [index|] eqn:Hi; [|done]. simpl.
  apply findIndex_Some in Hi as (old & Hold & _). rewrite Hold. simpl.
  rewrite insert_back by done. by close_cache.
Qed.

(** A failed delete leaves the cache as it found it. *)
Lemma delete_failed_save_restores category dataCache nation identifier :
  (mountCRUDForCategory.delete category dataCache nation identifier false).2
  = dataCache.
Proof.
  unfold mountCRUDForCategory.delete. open_nation dataCache category nation.
  destruct (JS.findIndex _ items) as [index|] eqn:Hi; [|done]. simpl.
  apply findIndex_Some in Hi as (old & Hold & _). rewrite Hold. simpl.
  rewrite splice_in_delete by done. by close_cache.
Qed.

Lemma post_failed_save_leaves category dataCache nation body :
  (mountCRUDForCategory.post category dataCache nation body false).2
  = nation_initialised category nation dataCache.
Proof.
  unfold mountCRUDForCategory.post, nation_initialised.
  destruct (dataCache !! category) as [collection|] eqn:Hc; [|done].
  set (c := match collection !! nation with
            | Some _ => collection
            | None => <[nation := []]> collection
            end).
  assert (<[category := c]> dataCache
          = match collection !! nation with
            | Some _ => dataCache
            | None => <[category := <[nation := []]> collection]> dataCache
            end) as Hsame.
  { subst c. destruct (collection !! nation); [by apply insert_id|done]. }
  assert (<[nation := default [] (c !! nation)]> c = c) as Hlist.
  { subst c. destruct (collection !! nation) as [items|] eqn:Hn.
    - rewrite Hn. simpl. by apply insert_id.
    - rewrite lookup_insert_eq. simpl. by rewrite insert_insert_eq. }
  destruct (_ || _); [done|]. destruct (JS.find _ _); [done|]. simpl.
  rewrite pop_push, Hlist, insert_insert_eq. done.
Qed.

(** A failed create into a nation the document already has leaves the
    cache as it found it. *)
Lemma post_failed_save_restores category dataCache nation body collection items :
  dataCache !! category = Some collection ->
  collection !! nation = Some items ->
  (mountCRUDForCategory.post category dataCache nation body false).2 = dataCache.
Proof.
  intros Hc Hn. rewrite post_failed_save_leaves. unfold nation_initialised.
  by rewrite Hc, Hn.
Qed.

Lemma aircraft_patch_failed_save_restores dataCache nation identifier body :
  (Aircraft.patch dataCache nation identifier body false).2 = dataCache.
Proof.
  unfold Aircraft.patch. open_nation dataCache Aircraft.category nation.
  destruct (0 <? length _)%nat; [done|].
  destruct (JS.findIndex _ items) as [index|] eqn:Hi; [|done]. simpl.
  apply findIndex_Some in Hi as (old & Hold & _). rewrite Hold. simpl.
  rewrite insert_back by done. by close_cache.
Qed.

Lemma aircraft_delete_failed_save_restores dataCache nation identifier :
  (Aircraft.delete dataCache nation identifier false).2 = dataCache.
Proof.
  unfold Aircraft.delete. open_nation dataCache Aircraft.category nation.
  destruct (JS.findIndex _ items) as [index|] eqn:Hi; [|done]. simpl.
  apply findIndex_Some in Hi as (old & Hold & _). rewrite Hold. simpl.
  rewrite splice_in_delete by done. by close_cache.
Qed.
End Rollback.

(** ** The category table *)

(** Every mounted category has an id field, and it is none of the fields
    the handlers set themselves. *)
Lemma mounted_id_fields category :
  category ∈ mounted ->
  idFieldForCategory !! category = Some (idField_of category)
  /\ idField_of category ≠ "id" /\ idField_of category ≠ "nation"
  /\ idField_of category ≠ "name".
Proof.
  intros Hin. apply list_elem_of_In in Hin. simpl in Hin.
  destruct Hin as [<-|[<-|[<-|[<-|[<-|[]]]]]]; by parts.
Qed.

(** ** Listing a nation *)

Lemma keys_spec {A} (o : gmap string A) k : k ∈ keys o <-> is_Some (o !! k).
Proof.
  unfold keys. rewrite list_elem_of_fmap. split.
  - intros ([k' v] & -> & Hin). apply elem_of_map_to_list in Hin. by exists v.
  - intros [v Hv]. exists (k, v). split; [done|]. by apply elem_of_map_to_list.
Qed.




(** ** A create whose save fails *)



(** C1, where the code parts from it: the create of the aircraft routes
    answers 500 on a failed save and leaves the appended record in the list;
    the create of the route factory takes the record back but leaves the
    nation key it initialised, so neither cache is the one the call found. *)
Theorem create_failed_save_not_undone :
  let after := Aircraft.post Fixture.cache "usa" Fixture.raptor false in
  let after' :=
    mountCRUDForCategory.post "aircraft" Fixture.cache "atlantis" Fixture.raptor false in
  (after.1 = Some (Response 500 (PError "Failed to save aircraft" DNull))
   /\ Fixture.cache !! "aircraft" ≫= (.!! "usa") = Some [Fixture.p26; Fixture.p51]
   /\ after.2 !! "aircraft" ≫= (.!! "usa")
      = Some [Fixture.p26; Fixture.p51;
              Aircraft.newAircraft Fixture.cache "usa" Fixture.raptor]
   /\ after.2 ≠ Fixture.cache)
  /\ (after'.1 = Response 500 (PError "Failed to save aircraft" DNull)
      /\ Fixture.cache !! "aircraft" ≫= (.!! "atlantis") = None
      /\ after'.2 !! "aircraft" ≫= (.!! "atlantis") = Some []
      /\ after'.2 ≠ Fixture.cache).
Proof.
  cbv zeta.
  assert (length <$> (Fixture.cache !! "aircraft" ≫= (.!! "usa")) = Some 2%nat)
    as Hbefore by evaluate.
  assert (length <$> ((Aircraft.post Fixture.cache "usa" Fixture.raptor false).2
                        !! "aircraft" ≫= (.!! "usa")) = Some 3%nat)
    as Hafter by evaluate.
  assert (Fixture.cache !! "aircraft" ≫= (.!! "atlantis") = None) as Hbefore'
    by evaluate.
  assert ((mountCRUDForCategory.post "aircraft" Fixture.cache "atlantis"
             Fixture.raptor false).2 !! "aircraft" ≫= (.!! "atlantis") = Some [])
    as Hafter' by evaluate.
  parts.
  - evaluate.
  - evaluate.
  - evaluate.
  - intros Heq. rewrite Heq, Hbefore in Hafter. discriminate.
  - evaluate.
  - exact Hbefore'.
  - exact Hafter'.
  - intros Heq. rewrite Heq, Hbefore' in Hafter'. discriminate.
Qed.

(** ** The record a create stores *)

Lemma get_union_l (body base : record) k v :
  body !! k = Some v -> get (body ∪ base) k = v.
Proof. intros Hk. unfold get. by rewrite (lookup_union_Some_l _ _ _ _ Hk). Qed.

Lemma get_union_r (body base : record) k :
  body !! k = None -> get (body ∪ base) k = get base k.
Proof. intros Hk. unfold get. by rewrite lookup_union_r. Qed.

(** Every property of the body is the property of the new record; [id] and
    [nation] come from the server only when the body has none. *)
Lemma newItem_fields dataCache category nation (body : record) :
  (forall k v, body !! k = Some v ->
     get (mountCRUDForCategory.newItem dataCache category nation body) k = v)
  /\ (body !! "id" = None ->
      get (mountCRUDForCategory.newItem dataCache category nation body) "id"
      = JS.VNum (getNextIdForCategory dataCache category nation))
  /\ (body !! "nation" = None ->
      get (mountCRUDForCategory.newItem dataCache category nation body) "nation"
      = JS.VStr nation).
Proof.
  unfold mountCRUDForCategory.newItem. split; [|split].
  - intros k v Hk. by apply get_union_l.
  - intros Hk. rewrite get_union_r by done. unfold get.
    rewrite lookup_insert_ne by done. by rewrite lookup_insert_eq.
  - intros Hk. rewrite get_union_r by done. unfold get. by rewrite lookup_insert_eq.
Qed.

(** C2, where the code parts from it: a create into [usa] whose body carries
    [nation: "germany"] and [id: 999] is accepted, and the record stored and
    returned has the nation and the id of the body, not the nation of the
    path and the computed id 3; so in the route factory and in the aircraft
    routes. *)
Theorem create_body_overrides_keys :
  let item :=
    mountCRUDForCategory.newItem Fixture.cache "aircraft" "usa" Fixture.raptor_with_keys in
  let item' := Aircraft.newAircraft Fixture.cache "usa" Fixture.raptor_with_keys in
  getNextIdForCategory Fixture.cache "aircraft" "usa" = JS.of_Z 3
  /\ (mountCRUDForCategory.post "aircraft" Fixture.cache "usa"
        Fixture.raptor_with_keys true
      = (Response 201 (PItem item),
         <["aircraft" := <["usa" := [Fixture.p26; Fixture.p51; item]]>
                           Fixture.aircraft_document]> Fixture.cache)
      /\ get item "nation" = JS.VStr "germany"
      /\ get item "id" = num 999)
  /\ (Aircraft.post Fixture.cache "usa" Fixture.raptor_with_keys true
      = (Some (Response 201 (PItem item')),
         <["aircraft" := <["usa" := [Fixture.p26; Fixture.p51; item']]>
                           Fixture.aircraft_document]> Fixture.cache)
      /\ get item' "nation" = JS.VStr "germany"
      /\ get item' "id" = num 999).
Proof. cbv zeta. parts; evaluate. Qed.

(** ** Validation *)

Lemma push_if_elem b message errors m :
  m ∈ push_if b message errors <-> m ∈ errors \/ (b = true /\ m = message).
Proof.
  unfold push_if. destruct b.
  - rewrite elem_of_app, list_elem_of_singleton. intuition.
  - intuition congruence.
Qed.

(** The validator of an update reports every violated rule, and nothing
    else. *)
Lemma validateGenericData_update_complete category data m :
  m ∈ validateGenericData category data true <->
  (rank_violated data = true /\ m = rank_message)
  \/ (br_violated data = true /\ m = br_message)
  \/ (crew_violated data = true /\ m = crew_message).
Proof.
  unfold validateGenericData. rewrite !push_if_elem, elem_of_nil. tauto.
Qed.

(** An update of a nation in the collection whose body violates a rule is
    turned down with 400 and the list of all violated rules, and changes
    nothing. *)
Lemma patch_rejects_violations category dataCache collection nation items
    identifier body saved :
  dataCache !! category = Some collection ->
  collection !! nation = Some items ->
  rank_violated body || br_violated body || crew_violated body = true ->
  mountCRUDForCategory.patch category dataCache nation identifier body saved
  = (Response 400
       (PError "Validation failed" (DErrors (validateGenericData category body true))),
     dataCache).
Proof.
  intros Hc Hn Hv. unfold mountCRUDForCategory.patch. rewrite Hc. simpl.
  rewrite Hn. simpl.
  destruct (0 <? length (validateGenericData category body true))%nat eqn:Hlen; [done|].
  apply Nat.ltb_ge in Hlen.
  assert (validateGenericData category body true = []) as Hnil
    by (destruct (validateGenericData category body true); [done|simpl in Hlen; lia]).
  exfalso.
  assert (exists m, m ∈ validateGenericData category body true) as [m Hm].
  { destruct (rank_violated body) eqn:Hr.
    - exists rank_message. apply validateGenericData_update_complete. by left.
    - destruct (br_violated body) eqn:Hb.
      + exists br_message. apply validateGenericData_update_complete. right. by left.
      + destruct (crew_violated body) eqn:Hw; [|done].
        exists crew_message. apply validateGenericData_update_complete. right. by right. }
  rewrite Hnil in Hm. by apply elem_of_nil in Hm.
Qed.

(** C6, where the code parts from it: a create whose body has rank 99 and a
    crew that is no number is accepted with 201 and stored as it is, although
    the validator, asked, reports both rules, and an update with the same
    body is turned down with 400 and both rules; so in the route factory and
    in the aircraft routes. *)
Theorem create_skips_range_validation :
  let item :=
    mountCRUDForCategory.newItem Fixture.cache "aircraft" "usa"
      Fixture.raptor_out_of_range in
  let item' := Aircraft.newAircraft Fixture.cache "usa" Fixture.raptor_out_of_range in
  validateGenericData "aircraft" Fixture.raptor_out_of_range false
  = [rank_message; crew_message]
  /\ (mountCRUDForCategory.post "aircraft" Fixture.cache "usa"
        Fixture.raptor_out_of_range true
      = (Response 201 (PItem item),
         <["aircraft" := <["usa" := [Fixture.p26; Fixture.p51; item]]>
                           Fixture.aircraft_document]> Fixture.cache)
      /\ get item "rank" = num 99
      /\ get item "crew" = JS.VStr "two")
  /\ (Aircraft.post Fixture.cache "usa" Fixture.raptor_out_of_range true
      = (Some (Response 201 (PItem item')),
         <["aircraft" := <["usa" := [Fixture.p26; Fixture.p51; item']]>
                           Fixture.aircraft_document]> Fixture.cache)
      /\ get item' "rank" = num 99
      /\ get item' "crew" = JS.VStr "two")
  /\ mountCRUDForCategory.patch "aircraft" Fixture.cache "usa" "1"
       Fixture.raptor_out_of_range true
     = (Response 400 (PError "Validation failed" (DErrors [rank_message; crew_message])),
        Fixture.cache).
Proof. cbv zeta. parts; evaluate. Qed.

(** ** Update keeps the key fields *)

Lemma updated_fields idField (old body : record) :
  let item := mountCRUDForCategory.updated idField old body in
  get item "id" = get old "id"
  /\ get item "nation" = get old "nation"
  /\ get item idField = get old idField
  /\ (forall k, k ≠ "id" -> k ≠ "nation" -> k ≠ idField ->
      item !! k = match body !! k with Some v => Some v | None => old !! k end).
Proof.
  unfold mountCRUDForCategory.updated, get. simpl. repeat split.
  - destruct (decide (idField = "id")) as [->|Hne].
    + by rewrite lookup_insert_eq.
    + rewrite lookup_insert_ne by done. rewrite lookup_insert_ne by done.
      by rewrite lookup_insert_eq.
  - destruct (decide (idField = "nation")) as [->|Hne].
    + by rewrite lookup_insert_eq.
    + rewrite lookup_insert_ne by done. by rewrite lookup_insert_eq.
  - by rewrite lookup_insert_eq.
  - intros k Hid Hnation Hfield. rewrite !lookup_insert_ne by done.
    rewrite lookup_union. by destruct (body !! k), (old !! k).
Qed.

(** C4: an update that passes validation and resolves to a record answers
    200 and writes, at the index of that record, the record merged with the
    body: every field the body has, apart from [id], [nation] and the id
    field, takes the value of the body, every other field keeps its value,
    and [id], [nation] and the id field read as they did before, whatever
    the body holds for them.  The aircraft routes do the same. *)
Theorem patch_keeps_key_fields category dataCache collection nation items
    identifier body index :
  dataCache !! category = Some collection ->
  collection !! nation = Some items ->
  validateGenericData category body true = [] ->
  JS.findIndex (resolves (idField_of category) identifier) items = Some index ->
  exists old,
    items !! index = Some old
    /\ let item := mountCRUDForCategory.updated (idField_of category) old body in
       mountCRUDForCategory.patch category dataCache nation identifier body true
       = (Response 200 (PItem item),
          <[category := <[nation := <[index := item]> items]> collection]> dataCache)
       /\ get item "id" = get old "id"
       /\ get item "nation" = get old "nation"
       /\ get item (idField_of category) = get old (idField_of category)
       /\ (forall k, k ≠ "id" -> k ≠ "nation" -> k ≠ idField_of category ->
           item !! k = match body !! k with Some v => Some v | None => old !! k end)
       /\ (category = Aircraft.category ->
           Aircraft.patch dataCache nation identifier body true
           = (Response 200 (PItem item),
              <[category := <[nation := <[index := item]> items]> collection]>
                dataCache)).
Proof.
  intros Hc Hn Hvalid Hindex.
  destruct (findIndex_Some _ _ _ Hindex) as (old & Hold & _).
  exists old. split; [done|]. intros item.
  destruct (updated_fields (idField_of category) old body) as (Hid & Hnat & Hfield & Hrest).
  split; [|split; [done|split; [done|split; [done|split; [done|]]]]].
  - unfold mountCRUDForCategory.patch. rewrite Hc. simpl. rewrite Hn. simpl.
    rewrite Hvalid. simpl. rewrite Hindex, Hold. done.
  - intros ->. unfold Aircraft.patch. rewrite Hc. simpl. rewrite Hn. simpl.
    change (Aircraft.validateAircraftData body true)
      with (validateGenericData Aircraft.category body true).
    rewrite Hvalid. simpl.
    change (idField_of Aircraft.category) with "aircraftid" in Hindex.
    rewrite Hindex, Hold. done.
Qed.

Lemma patch_keeps_key_fields_witness :
  exists old,
    [Fixture.p26; Fixture.p51] !! 0%nat = Some old
    /\ let item := mountCRUDForCategory.updated "aircraftid" old Fixture.rekey in
       get item "id" = get old "id"
       /\ get item "nation" = get old "nation"
       /\ get item "aircraftid" = get old "aircraftid"
       /\ item !! "br" = Some (JS.VNum (JS.Fin (133 # 10))).
Proof.
  destruct (patch_keeps_key_fields "aircraft" Fixture.cache
              Fixture.aircraft_document
              "usa" [Fixture.p26; Fixture.p51] "p-26a-34m2" Fixture.rekey 0%nat
              eq_refl eq_refl eq_refl eq_refl)
    as (old & Hold & _ & Hid & Hnation & Hfield & Hrest & _).
  exists old. split; [exact Hold|].
  split; [exact Hid|]. split; [exact Hnation|]. split; [exact Hfield|].
  exact (Hrest "br" ltac:(discriminate) ltac:(discriminate) ltac:(discriminate)).
Defined.

(** ** Uniqueness of the id field within a nation *)


Lemma filled_string v :
  not_a_filled_string v = false ->
  exists s, v = JS.VStr s /\ JS.truthy v = true /\ String.eqb (JS.trim s) "" = false.
Proof.
  unfold not_a_filled_string. intros H.
  apply orb_false_elim in H as [H Hblank]. apply orb_false_elim in H as [Htruthy Htype].
  apply negb_false_iff in Htruthy. destruct v as [| |b|n|s]; try done. by exists s.
Qed.





(** ** The next id *)








Lemma getNextAircraftId_generic dataCache nation :
  Aircraft.getNextAircraftId dataCache nation
  = getNextIdForCategory dataCache Aircraft.category nation.
Proof. reflexivity. Qed.


(** What an accepted create stores. *)
Lemma post_created category dataCache collection nation body saved item after :
  dataCache !! category = Some collection ->
  mountCRUDForCategory.post category dataCache nation body saved
  = (Response 201 (PItem item), after) ->
  saved = true
  /\ item = mountCRUDForCategory.newItem (nation_initialised category nation dataCache)
              category nation body
  /\ after = <[category := <[nation := default [] (collection !! nation) ++ [item]]>
                collection]> dataCache.
Proof.
  intros Hc. unfold mountCRUDForCategory.post, nation_initialised. rewrite Hc.
  destruct (_ || _); [done|]. destruct (JS.find _ _); [done|].
  destruct saved; [|done]. intros [= <- <-]. split; [done|].
  destruct (collection !! nation) as [items|] eqn:Hn; simpl.
  - rewrite (insert_id dataCache category collection) by done.
    rewrite Hn. done.
  - rewrite lookup_insert_eq. simpl. by rewrite !insert_insert_eq.
Qed.



(** ** Pagination *)

Lemma effective_limit_bounds limit : 1 <= effective_limit limit <= 100.
Proof. unfold effective_limit. lia. Qed.

Lemma effective_page_bounds page : 1 <= effective_page page.
Proof. unfold effective_page. lia. Qed.

Lemma ceil_div_bounds total limit :
  0 < limit -> total <= ceil_div total limit * limit < total + limit.
Proof.
  intros Hl. unfold ceil_div.
  pose proof (Z.div_mod (- total) limit ltac:(lia)) as Hdm.
  pose proof (Z.mod_pos_bound (- total) limit Hl) as Hmod. nia.
Qed.

Section Slices.
Context {A : Type}.
Implicit Types (l : list A).

(** A page is the chunk of [limit] elements after the pages before it. *)
Lemma page_slice_chunk l page limit :
  1 <= page -> 1 <= limit ->
  page_slice l page limit
  = take (Z.to_nat limit) (drop (Z.to_nat ((page - 1) * limit)) l).
Proof.
  intros Hp Hl. unfold page_slice, JS.slice.
  set (len := Z.of_nat (length l)). set (start := (page - 1) * limit).
  assert (0 <= start) as Hs by (subst start; nia).
  destruct (start <? 0) eqn:H1; [lia|]. destruct (start + limit <? 0) eqn:H2; [lia|].
  destruct (Z.le_gt_cases len start) as [Hout|Hin].
  - rewrite (drop_ge l (Z.to_nat start)) by (subst len; lia).
    rewrite (drop_ge l (Z.to_nat (Z.min start len))) by (subst len; lia).
    by rewrite !take_nil.
  - replace (Z.min start len) with start by lia.
    destruct (Z.le_gt_cases (start + limit) len) as [Hfull|Hshort].
    + f_equal. lia.
    + rewrite !take_ge; [done|rewrite length_drop; subst len; lia..].
Qed.




End Slices.

Section Decimal.
Implicit Types (c : ascii) (l : JS.chars).

















End Decimal.

(** ** Resolving an identifier *)






(** ** The pages of a list *)



(** ** Samples *)

Example string_to_number_samples :
  JS.isNaN "12" = false /\ JS.isNaN "1.5" = false /\ JS.isNaN "12abc" = true
  /\ JS.isNaN "0x1F" = false /\ JS.isNaN " 7 " = false /\ JS.isNaN "" = false
  /\ JS.isNaN "f-22-raptor" = true /\ JS.isNaN "1e3" = false /\ JS.isNaN "." = true
  /\ JS.isNaN "-Infinity" = false /\ JS.isNaN "+-1" = true /\ JS.isNaN "-0x10" = true
  /\ JS.isNaN "5." = false /\ JS.isNaN ".5e-2" = false /\ JS.isNaN "1e" = true.
Proof. parts; evaluate. Qed.

Example parseInt_samples :
  JS.parseInt "12" = Some 12 /\ JS.parseInt "1.5" = Some 1 /\ JS.parseInt "12abc" = Some 12
  /\ JS.parseInt "0x1F" = Some 31 /\ JS.parseInt " -7" = Some (-7) /\ JS.parseInt "" = None
  /\ JS.parseInt "undefined" = None /\ JS.parseInt "1e3" = Some 1 /\ JS.parseInt "Infinity" = None.
Proof. parts; evaluate. Qed.

Example string_to_number_values :
  JS.string_to_number "13.3" = JS.Fin (133 # 10) /\ JS.string_to_number "1e3" = JS.Fin 1000
  /\ JS.string_to_number "-2.50" = JS.Fin (- 5 # 2) /\ JS.string_to_number "0b101" = JS.Fin 5.
Proof. parts; evaluate. Qed.

(** The scenario of the aircraft create, update and delete, every save
    succeeding: 201 with the next id and the nation of the path, 409 on the
    second create, 200 on the update with [br] changed and the key fields
    kept, 204 on the delete and 404 on the get after it. *)
Example raptor_scenario :
  let created := mountCRUDForCategory.post "aircraft" Fixture.cache "usa" Fixture.raptor true in
  let again := mountCRUDForCategory.post "aircraft" created.2 "usa" Fixture.raptor true in
  let change : record := {[ "br" := JS.VNum (JS.Fin (133 # 10)) ]} in
  let patched :=
    mountCRUDForCategory.patch "aircraft" again.2 "usa" "f-22-raptor" change true in
  let deleted :=
    mountCRUDForCategory.delete "aircraft" patched.2 "usa" "f-22-raptor" true in
  created.1
  = Response 201
      (PItem (<["id" := num 3]> (<["nation" := JS.VStr "usa"]> Fixture.raptor)))
  /\ status again.1 = 409
  /\ patched.1
     = Response 200
         (PItem (<["br" := JS.VNum (JS.Fin (133 # 10))]>
                   (<["id" := num 3]> (<["nation" := JS.VStr "usa"]> Fixture.raptor))))
  /\ mountCRUDForCategory.get_one "aircraft" patched.2 "usa" "3" = patched.1
  /\ deleted.1 = Response 204 PNone
  /\ deleted.2 = Fixture.cache
  /\ status (mountCRUDForCategory.get_one "aircraft" deleted.2 "usa" "f-22-raptor") = 404.
Proof. cbv zeta. parts; evaluate. Qed.

(** * Further properties of the handlers *)

(** ** What a mutation leaves of the cache *)

(** The cache a mutating handler leaves is the cache it found, or that
    cache with one list written under its nation. *)
Lemma post_leaves category dataCache nation body saved :
  (mountCRUDForCategory.post category dataCache nation body saved).2 = dataCache
  \/ exists collection l,
       dataCache !! category = Some collection
       /\ (mountCRUDForCategory.post category dataCache nation body saved).2
          = <[category := <[nation := l]> collection]> dataCache.
Proof.
  unfold mountCRUDForCategory.post.
  destruct (dataCache !! category) as [collection|] eqn:Hc; [|by left].
  set (c := match collection !! nation with
            | Some _ => collection
            | None => <[nation := []]> collection
            end).
  assert (<[category := c]> dataCache = dataCache
          \/ <[category := c]> dataCache
             = <[category := <[nation := []]> collection]> dataCache) as Hinit.
  { subst c. destruct (collection !! nation); [left; by apply insert_id|by right]. }
  assert (forall l, <[nation := l]> c = <[nation := l]> collection) as Hwrite.
  { intros l. subst c. destruct (collection !! nation); [done|].
    by rewrite insert_insert_eq. }
  destruct (_ || _).
  { destruct Hinit as [->| ->]; [by left|right; by exists collection, []]. }
  destruct (JS.find _ _).
  { destruct Hinit as [->| ->]; [by left|right; by exists collection, []]. }
  destruct saved; simpl; rewrite insert_insert_eq, Hwrite; right; by eexists _, _.
Qed.

Lemma patch_leaves category dataCache nation identifier body saved :
  (mountCRUDForCategory.patch category dataCache nation identifier body saved).2
  = dataCache
  \/ exists collection l,
       dataCache !! category = Some collection
       /\ (mountCRUDForCategory.patch category dataCache nation identifier body saved).2
          = <[category := <[nation := l]> collection]> dataCache.
Proof.
  unfold mountCRUDForCategory.patch.
  destruct (dataCache !! category) as [collection|] eqn:Hc; simpl; [|by left].
  destruct (collection !! nation) as [items|]; simpl; [|by left].
  destruct (0 <? length _)%nat; [by left|].
  destruct (JS.findIndex _ items); [|by left].
  destruct saved; right; by eexists _, _.
Qed.

Lemma delete_leaves category dataCache nation identifier saved :
  (mountCRUDForCategory.delete category dataCache nation identifier saved).2
  = dataCache
  \/ exists collection l,
       dataCache !! category = Some collection
       /\ (mountCRUDForCategory.delete category dataCache nation identifier saved).2
          = <[category := <[nation := l]> collection]> dataCache.
Proof.
  unfold mountCRUDForCategory.delete.
  destruct (dataCache !! category) as [collection|] eqn:Hc; simpl; [|by left].
  destruct (collection !! nation) as [items|]; simpl; [|by left].
  destruct (JS.findIndex _ items); [|by left].
  destruct saved; right; by eexists _, _.
Qed.

Lemma written_elsewhere (dataCache : vehicles) category nation collection l
    category' nation' :
  dataCache !! category = Some collection ->
  let after := <[category := <[nation := l]> collection]> dataCache in
  (after !! category' = dataCache !! category' \/ category' = category)
  /\ (after !! category' ≫= (.!! nation') = dataCache !! category' ≫= (.!! nation')
      \/ (category' = category /\ nation' = nation)).
Proof.
  intros Hc after. subst after.
  destruct (decide (category' = category)) as [->|Hne].
  - split; [by right|]. destruct (decide (nation' = nation)) as [->|Hn]; [by right|].
    left. rewrite lookup_insert_eq, Hc. simpl. by rewrite lookup_insert_ne.
  - rewrite lookup_insert_ne by done. by split; left.
Qed.

(** X4: whatever the request and whether or not its save succeeds, a create,
    an update or a delete leaves every other category as it was, and in its
    own category every list but the one of its nation. *)
Theorem mutations_stay_in_their_nation category dataCache nation identifier body saved
    category' nation' :
  let created := (mountCRUDForCategory.post category dataCache nation body saved).2 in
  let updated :=
    (mountCRUDForCategory.patch category dataCache nation identifier body saved).2 in
  let deleted :=
    (mountCRUDForCategory.delete category dataCache nation identifier saved).2 in
  ((created !! category' = dataCache !! category'
    /\ updated !! category' = dataCache !! category'
    /\ deleted !! category' = dataCache !! category')
   \/ category' = category)
  /\ ((created !! category' ≫= (.!! nation') = dataCache !! category' ≫= (.!! nation')
       /\ updated !! category' ≫= (.!! nation') = dataCache !! category' ≫= (.!! nation')
       /\ deleted !! category' ≫= (.!! nation') = dataCache !! category' ≫= (.!! nation'))
      \/ (category' = category /\ nation' = nation)).
Proof.
  intros created updated deleted.
  assert (forall after : vehicles,
            (after = dataCache
             \/ exists collection l,
                  dataCache !! category = Some collection
                  /\ after = <[category := <[nation := l]> collection]> dataCache) ->
            (after !! category' = dataCache !! category' \/ category' = category)
            /\ (after !! category' ≫= (.!! nation')
                = dataCache !! category' ≫= (.!! nation')
                \/ (category' = category /\ nation' = nation))) as Hlocal.
  { intros after [->|(collection & l & Hc & ->)]; [by split; left|].
    by apply written_elsewhere. }
  destruct (Hlocal created (post_leaves _ _ _ _ _)) as [Hc1 Hn1].
  destruct (Hlocal updated (patch_leaves _ _ _ _ _ _)) as [Hc2 Hn2].
  destruct (Hlocal deleted (delete_leaves _ _ _ _ _)) as [Hc3 Hn3].
  split.
  - destruct Hc1 as [Hc1|?]; [|by right]. destruct Hc2 as [Hc2|?]; [|by right].
    destruct Hc3 as [Hc3|?]; [|by right]. by left.
  - destruct Hn1 as [Hn1|?]; [|by right]. destruct Hn2 as [Hn2|?]; [|by right].
    destruct Hn3 as [Hn3|?]; [|by right]. by left.
Qed.

(** X1: an update whose save fails leaves the cache exactly as it found it,
    in the route factory and in the aircraft routes, and it answers 500
    exactly when the same request would have answered 200 had the save
    succeeded. *)
Theorem update_rollback_exact category dataCache nation identifier body :
  (mountCRUDForCategory.patch category dataCache nation identifier body false).2
  = dataCache
  /\ (Aircraft.patch dataCache nation identifier body false).2 = dataCache
  /\ (status (mountCRUDForCategory.patch category dataCache nation identifier body false).1
      = 500
      <-> status (mountCRUDForCategory.patch category dataCache nation identifier body true).1
          = 200).
Proof.
  split; [apply patch_failed_save_restores|].
  split; [apply aircraft_patch_failed_save_restores|].
  unfold mountCRUDForCategory.patch.
  destruct (dataCache !! category) as [collection|]; simpl; [|done].
  destruct (collection !! nation) as [items|]; simpl; [|done].
  destruct (0 <? length _)%nat; [done|].
  by destruct (JS.findIndex _ items).
Qed.

(** X2: a delete whose save fails puts the record back at its index, so
    that the cache is exactly as the handler found it, in the route factory
    and in the aircraft routes, and it answers 500 exactly when the same
    request would have answered 204 had the save succeeded. *)
Theorem delete_rollback_exact category dataCache nation identifier :
  (mountCRUDForCategory.delete category dataCache nation identifier false).2 = dataCache
  /\ (Aircraft.delete dataCache nation identifier false).2 = dataCache
  /\ (status (mountCRUDForCategory.delete category dataCache nation identifier false).1
      = 500
      <-> status (mountCRUDForCategory.delete category dataCache nation identifier true).1
          = 204).
Proof.
  split; [apply delete_failed_save_restores|].
  split; [apply aircraft_delete_failed_save_restores|].
  unfold mountCRUDForCategory.delete.
  destruct (dataCache !! category) as [collection|]; simpl; [|done].
  destruct (collection !! nation) as [items|]; simpl; [|done].
  by destruct (JS.findIndex _ items).
Qed.




(** ** Deleting and updating within a list *)

(** X3: a delete that resolves to a record and is saved answers 204 and
    takes exactly that record out of the list of its nation: the list is one
    shorter, the records before the index stay where they were and the
    records after it move up by one, in order; a get of the same identifier
    then answers 404 when no record left in the list resolves it.  The
    aircraft routes delete the same way. *)
Theorem delete_removes_resolved category dataCache collection nation items identifier
    index :
  dataCache !! category = Some collection ->
  collection !! nation = Some items ->
  JS.findIndex (resolves (idField_of category) identifier) items = Some index ->
  let after := mountCRUDForCategory.delete category dataCache nation identifier true in
  let kept := base.delete index items in
  after
  = (Response 204 PNone, <[category := <[nation := kept]> collection]> dataCache)
  /\ S (length kept) = length items
  /\ (forall j, (j < index)%nat -> kept !! j = items !! j)
  /\ (forall j, (index <= j)%nat -> kept !! j = items !! S j)
  /\ ((forall x, x ∈ kept -> resolves (idField_of category) identifier x = false) ->
      status (mountCRUDForCategory.get_one category after.2 nation identifier) = 404)
  /\ (category = Aircraft.category ->
      Aircraft.delete dataCache nation identifier true = after).
Proof.
  intros Hc Hn Hindex after kept.
  destruct (findIndex_Some _ _ _ Hindex) as (x & Hx & _).
  pose proof (lookup_lt_Some _ _ _ Hx) as Hlt.
  assert (after = (Response 204 PNone,
                   <[category := <[nation := kept]> collection]> dataCache)) as Hafter.
  { subst after. unfold mountCRUDForCategory.delete. rewrite Hc. simpl. rewrite Hn. simpl.
    by rewrite Hindex. }
  split; [done|]. split.
  { subst kept. rewrite length_delete by eauto. lia. }
  split; [intros j Hj; by apply list_lookup_delete_lt|].
  split; [intros j Hj; by apply list_lookup_delete_ge|].
  split.
  - intros Hnone. rewrite Hafter. simpl. unfold mountCRUDForCategory.get_one.
    rewrite !lookup_insert_eq. by rewrite (proj2 (find_None _ kept) Hnone).
  - intros ->. rewrite Hafter. unfold Aircraft.delete. rewrite Hc. simpl. rewrite Hn. simpl.
    change (idField_of Aircraft.category) with "aircraftid" in Hindex. by rewrite Hindex.
Qed.

Lemma delete_removes_resolved_witness :
  mountCRUDForCategory.delete "aircraft" Fixture.cache "usa" "p-26a-34m2" true
  = (Response 204 PNone,
     <["aircraft" := <["usa" := base.delete 0%nat [Fixture.p26; Fixture.p51]]>
                       Fixture.aircraft_document]> Fixture.cache).
Proof.
  destruct (delete_removes_resolved "aircraft" Fixture.cache Fixture.aircraft_document
              "usa" [Fixture.p26; Fixture.p51] "p-26a-34m2" 0%nat
              ltac:(reflexivity) ltac:(reflexivity) ltac:(evaluate)) as [Hafter _].
  exact Hafter.
Defined.

Lemma id_fields_insert k (items : list record) index old item :
  items !! index = Some old -> get item k = get old k ->
  id_fields k (<[index := item]> items) = id_fields k items.
Proof.
  intros Hold Hsame. unfold id_fields. rewrite list_fmap_insert, Hsame.
  apply list_insert_id. by rewrite list_lookup_fmap, Hold.
Qed.

(** X8: an update that is saved writes one record and nothing else: the
    list of the nation keeps its length, every record at another index is
    the record that was there, and the ids, the nations and the id fields of
    the list, read in list order, are what they were; so whatever was unique
    among them still is. *)
Theorem update_touches_one_record category dataCache collection nation items identifier
    body index :
  dataCache !! category = Some collection ->
  collection !! nation = Some items ->
  validateGenericData category body true = [] ->
  JS.findIndex (resolves (idField_of category) identifier) items = Some index ->
  exists items',
    (mountCRUDForCategory.patch category dataCache nation identifier body true).2
      !! category ≫= (.!! nation) = Some items'
    /\ length items' = length items
    /\ (forall j, j ≠ index -> items' !! j = items !! j)
    /\ id_fields "id" items' = id_fields "id" items
    /\ id_fields "nation" items' = id_fields "nation" items
    /\ id_fields (idField_of category) items' = id_fields (idField_of category) items
    /\ (NoDup (id_fields (idField_of category) items) ->
        NoDup (id_fields (idField_of category) items')).
Proof.
  intros Hc Hn Hvalid Hindex.
  destruct (findIndex_Some _ _ _ Hindex) as (old & Hold & _).
  destruct (updated_fields (idField_of category) old body) as (Hid & Hnat & Hfield & _).
  exists (<[index := mountCRUDForCategory.updated (idField_of category) old body]> items).
  assert (id_fields (idField_of category)
            (<[index := mountCRUDForCategory.updated (idField_of category) old body]> items)
          = id_fields (idField_of category) items) as Hfields
    by (by apply id_fields_insert with old).
  split.
  { unfold mountCRUDForCategory.patch. rewrite Hc. simpl. rewrite Hn. simpl.
    rewrite Hvalid. simpl. rewrite Hindex, Hold. simpl.
    rewrite lookup_insert_eq. simpl. by rewrite lookup_insert_eq. }
  split; [apply length_insert|].
  split; [intros j Hj; by apply list_lookup_insert_ne|].
  split; [by apply id_fields_insert with old|].
  split; [by apply id_fields_insert with old|].
  split; [done|]. by rewrite Hfields.
Qed.

Lemma update_touches_one_record_witness :
  exists items',
    (mountCRUDForCategory.patch "aircraft" Fixture.cache "usa" "2" Fixture.rekey true).2
      !! "aircraft" ≫= (.!! "usa") = Some items'
    /\ length items' = 2%nat
    /\ items' !! 0%nat = Some Fixture.p26.
Proof.
  destruct (update_touches_one_record "aircraft" Fixture.cache Fixture.aircraft_document
              "usa" [Fixture.p26; Fixture.p51] "2" Fixture.rekey 1%nat
              ltac:(reflexivity) ltac:(reflexivity) ltac:(evaluate) ltac:(evaluate))
    as (items' & Hafter & Hlen & Hother & _).
  exists items'. split; [exact Hafter|]. split; [exact Hlen|].
  exact (Hother 0%nat ltac:(discriminate)).
Defined.

(** ** Creating, then reading *)

Lemma strict_eq_VStr v s : JS.strict_eq v (JS.VStr s) = true <-> v = JS.VStr s.
Proof.
  destruct v as [| |b|n|s']; simpl; try (split; [done|discriminate]).
  rewrite String.eqb_eq. split; [by intros ->|by intros [= ->]].
Qed.


(** What a create has checked when it answers 201. *)
Lemma post_created_checks category dataCache collection nation body saved item after :
  dataCache !! category = Some collection ->
  mountCRUDForCategory.post category dataCache nation body saved
  = (Response 201 (PItem item), after) ->
  not_a_filled_string (get body (idField_of category)) = false
  /\ not_a_filled_string (get body "name") = false
  /\ forall x, x ∈ default [] (collection !! nation) ->
       JS.strict_eq (get x (idField_of category)) (get body (idField_of category)) = false.
Proof.
  intros Hc. unfold mountCRUDForCategory.post. rewrite Hc.
  assert (default [] (match collection !! nation with
                      | Some _ => collection
                      | None => <[nation := []]> collection
                      end !! nation) = default [] (collection !! nation)) as ->.
  { destruct (collection !! nation) as [items|] eqn:Hn; [by rewrite Hn|].
    by rewrite lookup_insert_eq. }
  destruct (not_a_filled_string (get body (idField_of category))); [done|].
  destruct (not_a_filled_string (get body "name")); [done|]. simpl.
  destruct (JS.find _ _) eqn:Hfind; [done|]. intros _.
  split; [done|]. split; [done|]. by apply find_None.
Qed.

(** X7: a create that is accepted appends its record to the list of its
    nation, and the id field of the new record is the one the body gave,
    which no record of the list had: id fields that were pairwise different
    in the list still are. *)
Theorem create_keeps_id_fields_unique category dataCache collection nation body saved
    item after :
  dataCache !! category = Some collection ->
  mountCRUDForCategory.post category dataCache nation body saved
  = (Response 201 (PItem item), after) ->
  let items := default [] (collection !! nation) in
  after !! category ≫= (.!! nation) = Some (items ++ [item])
  /\ get item (idField_of category) = get body (idField_of category)
  /\ (get item (idField_of category) ∉ id_fields (idField_of category) items)
  /\ (NoDup (id_fields (idField_of category) items) ->
      NoDup (id_fields (idField_of category) (items ++ [item]))).
Proof.
  intros Hc Hpost items.
  destruct (post_created _ _ _ _ _ _ _ _ Hc Hpost) as (_ & Hitem & Hafter).
  destruct (post_created_checks _ _ _ _ _ _ _ _ Hc Hpost) as (Hid & _ & Hnew).
  destruct (filled_string _ Hid) as (s & Hs & _).
  assert (get item (idField_of category) = JS.VStr s) as Hfield.
  { rewrite Hitem. apply newItem_fields. unfold get in Hs.
    by destruct (body !! idField_of category) as [v|]; simpl in Hs; subst. }
  assert (JS.VStr s ∉ id_fields (idField_of category) items) as Hfresh.
  { unfold id_fields. intros Hin. apply list_elem_of_fmap in Hin as (x & Hx & Hin).
    specialize (Hnew x Hin). rewrite Hs, <- Hx in Hnew. simpl in Hnew.
    by rewrite String.eqb_refl in Hnew. }
  split.
  { rewrite Hafter, lookup_insert_eq. simpl. by rewrite lookup_insert_eq. }
  split; [by rewrite Hfield, Hs|]. split; [by rewrite Hfield|].
  intros Hunique. unfold id_fields. rewrite fmap_app. apply NoDup_app.
  split; [done|]. split; [|apply NoDup_singleton].
  intros v Hv Hlast. apply list_elem_of_singleton in Hlast. subst v.
  rewrite Hfield in Hv. by apply Hfresh.
Qed.

Lemma create_keeps_id_fields_unique_witness :
  NoDup (id_fields "aircraftid"
           ([Fixture.p26; Fixture.p51]
            ++ [mountCRUDForCategory.newItem Fixture.cache "aircraft" "usa" Fixture.raptor])).
Proof.
  destruct (create_keeps_id_fields_unique "aircraft" Fixture.cache
              Fixture.aircraft_document "usa" Fixture.raptor true
              (mountCRUDForCategory.newItem Fixture.cache "aircraft" "usa" Fixture.raptor)
              (mountCRUDForCategory.post "aircraft" Fixture.cache "usa" Fixture.raptor
                 true).2
              ltac:(reflexivity) ltac:(evaluate)) as (_ & _ & _ & Hunique).
  apply Hunique.
  match goal with
  | |- NoDup ?l =>
      assert (l = [JS.VStr "p-26a-34m2"; JS.VStr "p-51d-5"]) as -> by evaluate
  end.
  apply NoDup_cons. split; [|apply NoDup_singleton].
  intros Hin. apply list_elem_of_singleton in Hin. discriminate.
Defined.

(** X5: after a create is accepted, a get that names the new record by its
    id field returns that record, provided the string, read as the resolver
    reads it, is the numeric id of no record that was in the list before; in
    particular whenever [Number] rejects the string and no id in the list is
    a string. *)
Theorem create_then_get_by_id_field category dataCache collection nation body saved
    item after id :
  dataCache !! category = Some collection ->
  mountCRUDForCategory.post category dataCache nation body saved
  = (Response 201 (PItem item), after) ->
  get body (idField_of category) = JS.VStr id ->
  let items := default [] (collection !! nation) in
  ((forall x, x ∈ items -> JS.strict_eq (get x "id") (searchId id) = false) ->
   mountCRUDForCategory.get_one category after nation id = Response 200 (PItem item))
  /\ (JS.isNaN id = true ->
      (forall x, x ∈ items -> JS.typeof (get x "id") ≠ "string") ->
      mountCRUDForCategory.get_one category after nation id = Response 200 (PItem item)).
Proof.
  intros Hc Hpost Hid items.
  destruct (post_created _ _ _ _ _ _ _ _ Hc Hpost) as (_ & Hitem & Hafter).
  destruct (post_created_checks _ _ _ _ _ _ _ _ Hc Hpost) as (_ & _ & Hnew).
  assert (get item (idField_of category) = JS.VStr id) as Hfield.
  { rewrite Hitem. apply newItem_fields. unfold get in Hid.
    by destruct (body !! idField_of category) as [v|]; simpl in Hid; subst. }
  assert ((forall x, x ∈ items -> JS.strict_eq (get x "id") (searchId id) = false) ->
          mountCRUDForCategory.get_one category after nation id
          = Response 200 (PItem item)) as Hget.
  { intros Hids. unfold mountCRUDForCategory.get_one.
    rewrite Hafter, !lookup_insert_eq. fold items.
    assert (JS.find (resolves (idField_of category) id) (items ++ [item]) = Some item)
      as ->; [|done].
    apply find_first. exists items, []. split; [done|]. split.
    - unfold resolves. rewrite Hfield. simpl. by rewrite String.eqb_refl.
    - intros y Hy. unfold resolves. rewrite (Hids y Hy).
      specialize (Hnew y Hy). rewrite Hid in Hnew. by rewrite Hnew. }
  split; [done|]. intros Hnan Htypes. apply Hget. intros x Hx.
  unfold searchId. rewrite Hnan. simpl. specialize (Htypes x Hx).
  by destruct (get x "id").
Qed.

Lemma create_then_get_by_id_field_witness :
  mountCRUDForCategory.get_one "aircraft"
    (mountCRUDForCategory.post "aircraft" Fixture.cache "usa" Fixture.raptor true).2
    "usa" "f-22-raptor"
  = Response 200
      (PItem (mountCRUDForCategory.newItem Fixture.cache "aircraft" "usa" Fixture.raptor)).
Proof.
  destruct (create_then_get_by_id_field "aircraft" Fixture.cache
              Fixture.aircraft_document "usa" Fixture.raptor true
              (mountCRUDForCategory.newItem Fixture.cache "aircraft" "usa" Fixture.raptor)
              (mountCRUDForCategory.post "aircraft" Fixture.cache "usa" Fixture.raptor
                 true).2
              "f-22-raptor"
              ltac:(reflexivity) ltac:(evaluate) ltac:(evaluate)) as [_ Hget].
  apply Hget; [evaluate|].
  intros x Hx. apply list_elem_of_In in Hx.
  destruct Hx as [<-|[<-|[]]]; discriminate.
Defined.





(** ** Validation of a request body *)

Lemma push_if_app b message errors :
  push_if b message errors = errors ++ (if b then [message] else []).
Proof. unfold push_if. destruct b; [done|by rewrite app_nil_r]. Qed.

(** X9: an update validates its body before it resolves the identifier: in
    a nation of a loaded category, a body that violates a rule is answered
    400, with the messages of exactly the violated rules in the order rank,
    br, crew, whether or not the identifier names a record, and nothing is
    changed; a body that violates none and an identifier that names no
    record are answered 404.  The aircraft routes validate the same way. *)
Theorem update_validates_first category dataCache collection nation items identifier
    body saved :
  dataCache !! category = Some collection ->
  collection !! nation = Some items ->
  let errors := validateGenericData category body true in
  errors
  = (if rank_violated body then [rank_message] else [])
    ++ (if br_violated body then [br_message] else [])
    ++ (if crew_violated body then [crew_message] else [])
  /\ (errors ≠ [] ->
      mountCRUDForCategory.patch category dataCache nation identifier body saved
      = (Response 400 (PError "Validation failed" (DErrors errors)), dataCache))
  /\ (errors = [] ->
      JS.findIndex (resolves (idField_of category) identifier) items = None ->
      mountCRUDForCategory.patch category dataCache nation identifier body saved
      = (Response 404
           (PError (singular category +:+ " not found with identifier: " +:+ identifier)
                   DNull),
         dataCache))
  /\ (category = Aircraft.category ->
      errors ≠ [] ->
      Aircraft.patch dataCache nation identifier body saved
      = (Response 400 (PError "Validation failed" (DErrors errors)), dataCache)).
Proof.
  intros Hc Hn errors.
  assert (forall e : list string, e ≠ [] -> (0 <? length e)%nat = true) as Hpos
    by (intros [|m e] He; [done|by simpl]).
  split; [|split; [|split]].
  - subst errors. unfold validateGenericData. cbv zeta. rewrite !push_if_app.
    by rewrite app_nil_l, <- app_assoc.
  - intros Herr. unfold mountCRUDForCategory.patch. rewrite Hc. simpl. rewrite Hn. simpl.
    fold errors. by rewrite (Hpos errors Herr).
  - intros Herr Hnone. unfold mountCRUDForCategory.patch. rewrite Hc. simpl.
    rewrite Hn. simpl. fold errors. by rewrite Herr, Hnone.
  - intros -> Herr. unfold Aircraft.patch. rewrite Hc. simpl. rewrite Hn. simpl.
    change (Aircraft.validateAircraftData body true) with errors.
    by rewrite (Hpos errors Herr).
Qed.

Lemma update_validates_first_witness :
  mountCRUDForCategory.patch "aircraft" Fixture.cache "usa" "no-such-aircraft"
    Fixture.raptor_out_of_range true
  = (Response 400
       (PError "Validation failed"
          (DErrors (validateGenericData "aircraft" Fixture.raptor_out_of_range true))),
     Fixture.cache).
Proof.
  destruct (update_validates_first "aircraft" Fixture.cache Fixture.aircraft_document
              "usa" [Fixture.p26; Fixture.p51] "no-such-aircraft"
              Fixture.raptor_out_of_range true ltac:(reflexivity) ltac:(reflexivity))
    as (Herrors & H400 & _).
  apply H400. rewrite Herrors.
  assert (rank_violated Fixture.raptor_out_of_range = true) as -> by evaluate.
  discriminate.
Defined.

(** X10: for a mounted category, the validator in create mode reports the
    required-field messages, the id field first, in front of what it reports
    in update mode, and the inline check of the create handler is the
    required-field part of it: on a loaded category a create answers 400
    exactly when a required-field message is due, and never for a range
    rule.  The validator of the aircraft routes is the generic validator at
    the category aircraft. *)
Theorem create_check_mirrors_validator category dataCache collection nation body saved :
  category ∈ mounted ->
  dataCache !! category = Some collection ->
  let idField := idField_of category in
  let required :=
    (if not_a_filled_string (get body idField)
     then [idField +:+ " is required and must be a non-empty string"] else [])
    ++ (if not_a_filled_string (get body "name") then [name_message] else []) in
  validateGenericData category body false
  = required ++ validateGenericData category body true
  /\ (status (mountCRUDForCategory.post category dataCache nation body saved).1 = 400
      <-> required ≠ [])
  /\ (forall isUpdate,
        Aircraft.validateAircraftData body isUpdate
        = validateGenericData Aircraft.category body isUpdate).
Proof.
  intros Hin Hc idField required.
  destruct (mounted_id_fields category Hin) as (Hfield & _).
  split; [|split].
  - unfold validateGenericData. rewrite Hfield. cbn [default]. cbv zeta.
    rewrite !push_if_app. subst required idField. by rewrite !app_nil_l, <- !app_assoc.
  - unfold mountCRUDForCategory.post. rewrite Hc. subst required. fold idField.
    destruct (not_a_filled_string (get body idField)); simpl; [done|].
    destruct (not_a_filled_string (get body "name")); simpl; [done|].
    destruct (JS.find _ _); simpl; [done|]. by destruct saved.
  - by intros [|].
Qed.

Lemma create_check_mirrors_validator_witness :
  status (mountCRUDForCategory.post "aircraft" Fixture.cache "usa"
            (base.delete "name" Fixture.raptor_out_of_range) true).1 = 400.
Proof.
  destruct (create_check_mirrors_validator "aircraft" Fixture.cache
              Fixture.aircraft_document "usa"
              (base.delete "name" Fixture.raptor_out_of_range) true
              ltac:(apply list_elem_of_here) ltac:(reflexivity)) as (_ & H400 & _).
  apply H400.
  assert (not_a_filled_string
            (get (base.delete "name" Fixture.raptor_out_of_range) "name") = true)
    as -> by evaluate.
  by destruct (not_a_filled_string _).
Defined.

(** ** The list endpoints *)

Lemma values_by_key {A} (o : gmap string (list A)) :
  values o = map (fun k => default [] (o !! k)) (keys o).
Proof.
  unfold values, keys.
  change (map ?f ?l) with (f <$> l). rewrite <- list_fmap_compose.
  apply Forall_fmap_ext_1, Forall_forall. intros [k v] Hkv.
  apply elem_of_map_to_list in Hkv. simpl. by rewrite Hkv.
Qed.

(** X11: on a loaded category, the total the flattened list reports when no
    query is given is the sum, over the nations the collection has a key
    for, of the counts that listing each nation reports. *)
Theorem list_total_is_sum_of_counts category dataCache collection page limit :
  dataCache !! category = Some collection ->
  page_total (mountCRUDForCategory.get_all category dataCache None page limit)
  = Z.of_nat
      (list_sum
         (map (fun nation =>
                 nation_count
                   (mountCRUDForCategory.get_by_nation category dataCache nation))
              (keys collection))).
Proof.
  intros Hc. unfold mountCRUDForCategory.get_all, mountCRUDForCategory.search.
  rewrite Hc. simpl. f_equal. rewrite length_concat, values_by_key, map_map.
  f_equal. apply map_ext_in. intros nation Hin.
  apply list_elem_of_In, keys_spec in Hin as [items Hitems].
  unfold mountCRUDForCategory.get_by_nation. by rewrite Hc, Hitems.
Qed.

Lemma list_total_is_sum_of_counts_witness :
  page_total (mountCRUDForCategory.get_all "aircraft" Fixture.cache None None None)
  = Z.of_nat
      (list_sum
         (map (fun nation =>
                 nation_count
                   (mountCRUDForCategory.get_by_nation "aircraft" Fixture.cache nation))
              (keys Fixture.aircraft_document))).
Proof.
  exact (list_total_is_sum_of_counts "aircraft" Fixture.cache Fixture.aircraft_document
           None None ltac:(reflexivity)).
Defined.

Lemma toLowerCase_idempotent s : JS.toLowerCase (JS.toLowerCase s) = JS.toLowerCase s.
Proof.
  induction s as [|c s IH]; [done|]. simpl. rewrite IH. f_equal.
  by destruct c as [[] [] [] [] [] [] [] []].
Qed.

Lemma toLowerCase_empty s : String.eqb (JS.toLowerCase s) "" = String.eqb s "".
Proof. by destruct s. Qed.

(** X13: the search does not see the letter case of the query: a query and
    its lower-case form select the same records, and fail alike, in the route
    factory and in the aircraft routes. *)
Theorem search_ignores_query_case category dataCache q :
  mountCRUDForCategory.search category dataCache (Some q)
  = mountCRUDForCategory.search category dataCache (Some (JS.toLowerCase q))
  /\ Aircraft.search dataCache (Some q)
     = Aircraft.search dataCache (Some (JS.toLowerCase q)).
Proof.
  unfold mountCRUDForCategory.search, Aircraft.search. simpl.
  rewrite toLowerCase_empty, toLowerCase_idempotent. done.
Qed.

Lemma filter_throw_total {A} (f : A -> option bool) (g : A -> bool) (l : list A) :
  (forall x, x ∈ l -> f x = Some (g x)) -> filter_throw f l = Some (List.filter g l).
Proof.
  induction l as [|a l IH]; intros Hf; [done|]. simpl.
  rewrite (Hf a (list_elem_of_here _ _)), IH; [done|].
  intros x Hx. apply Hf. by right.
Qed.

Lemma filter_sublist {A} (g : A -> bool) (l : list A) : List.filter g l `sublist_of` l.
Proof.
  induction l as [|a l IH]; [done|]. simpl.
  destruct (g a); [by apply sublist_skip|by apply sublist_cons].
Qed.

Lemma filter_throw_None {A} (f : A -> option bool) (l : list A) x :
  x ∈ l -> f x = None -> filter_throw f l = None.
Proof.
  induction l as [|a l IH]; intros Hx Hfx; [by apply elem_of_nil in Hx|]. simpl.
  apply elem_of_cons in Hx as [<-|Hx]; [by rewrite Hfx|].
  destruct (f a); [|done]. by rewrite (IH Hx Hfx).
Qed.

Lemma field_includes_searchable v query :
  searchable v = true ->
  field_includes v query
  = Some (JS.truthy v
          && match v with
             | JS.VStr s => JS.includes (JS.toLowerCase s) query
             | _ => false
             end).
Proof.
  unfold field_includes. destruct v as [| |b|n|s]; simpl; try done.
  - by destruct b.
  - intros Hn. apply negb_true_iff in Hn. by rewrite Hn.
  - intros _. by destruct (negb (s =? "")%string).
Qed.

(** X12: when the name, the id field and the nation of every record of a
    category are strings or falsy values, the search never throws: without a
    query, or with an empty one, it returns the flattened list, and with a
    query the records of that list, in order, one of whose three fields
    contains the lower-cased query once lower-cased itself. *)
Theorem search_of_readable_records category dataCache q :
  let allItems := concat (values (default ∅ (dataCache !! category))) in
  (forall i, i ∈ allItems ->
     searchable (get i "name") = true
     /\ searchable (get i (idField_of category)) = true
     /\ searchable (get i "nation") = true) ->
  mountCRUDForCategory.search category dataCache q
  = Some (match q with
          | Some q' =>
              if String.eqb q' "" then allItems
              else List.filter (matches (idField_of category) (JS.toLowerCase q')) allItems
          | None => allItems
          end)
  /\ (forall found, mountCRUDForCategory.search category dataCache q = Some found ->
      found `sublist_of` allItems).
Proof.
  intros allItems Hreadable.
  assert (mountCRUDForCategory.search category dataCache q
          = Some (match q with
                  | Some q' =>
                      if String.eqb q' "" then allItems
                      else List.filter
                             (matches (idField_of category) (JS.toLowerCase q')) allItems
                  | None => allItems
                  end)) as Hsearch.
  { unfold mountCRUDForCategory.search. fold allItems. destruct q as [q'|]; [|done].
    simpl. destruct (String.eqb q' ""); [done|]. simpl.
    apply filter_throw_total. intros i Hi.
    destruct (Hreadable i Hi) as (Hname & Hfield & Hnation).
    rewrite !field_includes_searchable by done. unfold matches. cbv zeta.
    destruct (JS.truthy (get i "name") && _); [done|]. simpl.
    by destruct (JS.truthy (get i (idField_of category)) && _). }
  split; [done|]. intros found. rewrite Hsearch. intros [= <-].
  destruct q as [q'|]; [|done]. destruct (String.eqb q' ""); [done|].
  apply filter_sublist.
Qed.

Lemma search_of_readable_records_witness :
  mountCRUDForCategory.search "aircraft" Fixture.cache (Some "MUSTANG")
  = Some (List.filter (matches (idField_of "aircraft") (JS.toLowerCase "MUSTANG"))
            (concat (values (default ∅ (Fixture.cache !! "aircraft"))))).
Proof.
  destruct (search_of_readable_records "aircraft" Fixture.cache (Some "MUSTANG"))
    as [Hsearch _]; [|exact Hsearch].
  assert (forallb (fun i => searchable (get i "name")
                            && searchable (get i (idField_of "aircraft"))
                            && searchable (get i "nation"))
            (concat (values (default ∅ (Fixture.cache !! "aircraft")))) = true)
    as Hall by evaluate.
  intros i Hi. apply list_elem_of_In in Hi.
  pose proof (proj1 (forallb_forall _ _) Hall i Hi) as Hi'.
  apply andb_true_iff in Hi' as [Hi' Hnation].
  apply andb_true_iff in Hi' as [Hname Hfield].
  exact (conj Hname (conj Hfield Hnation)).
Defined.

(** X14: one record whose name is a truthy value that is no string makes
    the search throw for every non-empty query, whatever the other records
    are, so that the flattened list has no answer of its own; without a query
    the list is served as usual. *)
Theorem search_breaks_on_unreadable_name category dataCache i q page limit :
  i ∈ concat (values (default ∅ (dataCache !! category))) ->
  JS.truthy (get i "name") = true ->
  JS.typeof (get i "name") ≠ "string" ->
  q ≠ "" ->
  mountCRUDForCategory.search category dataCache (Some q) = None
  /\ mountCRUDForCategory.get_all category dataCache (Some q) page limit = None
  /\ mountCRUDForCategory.search category dataCache None
     = Some (concat (values (default ∅ (dataCache !! category)))).
Proof.
  intros Hi Htruthy Htype Hq.
  assert (mountCRUDForCategory.search category dataCache (Some q) = None) as Hsearch.
  { unfold mountCRUDForCategory.search. simpl.
    destruct (String.eqb q "") eqn:Hempty; [by apply String.eqb_eq in Hempty|]. simpl.
    apply filter_throw_None with i; [done|].
    unfold field_includes. rewrite Htruthy. by destruct (get i "name"). }
  split; [done|]. split; [|done].
  unfold mountCRUDForCategory.get_all. by rewrite Hsearch.
Qed.

Lemma search_breaks_on_unreadable_name_witness :
  mountCRUDForCategory.get_all "aircraft"
    {[ "aircraft" := {[ "usa" := [<["name" := num 51]> Fixture.p51] ]} ]}
    (Some "p") None None
  = None.
Proof.
  destruct (search_breaks_on_unreadable_name "aircraft"
              {[ "aircraft" := {[ "usa" := [<["name" := num 51]> Fixture.p51] ]} ]}
              (<["name" := num 51]> Fixture.p51) "p" None None)
    as (_ & Hget & _); [|evaluate|discriminate|discriminate|exact Hget].
  assert (concat (values (default ∅
            (({[ "aircraft" := {[ "usa" := [<["name" := num 51]> Fixture.p51] ]} ]}
              : vehicles) !! "aircraft")))
          = [<["name" := num 51]> Fixture.p51]) as -> by evaluate.
  apply list_elem_of_here.
Defined.

(** ** Nations *)

Lemma NoDup_fmap_same {A B} (f : A -> B) (l : list A) x y :
  NoDup (f <$> l) -> x ∈ l -> y ∈ l -> f x = f y -> x = y.
Proof.
  induction l as [|a l IH]; intros Hnd Hx Hy Hf; [by apply elem_of_nil in Hx|].
  rewrite fmap_cons in Hnd. apply NoDup_cons in Hnd as [Ha Hnd].
  apply elem_of_cons in Hx as [->|Hx]; apply elem_of_cons in Hy as [->|Hy]; [done|..].
  - exfalso. apply Ha. rewrite Hf. by apply list_elem_of_fmap_2.
  - exfalso. apply Ha. rewrite <- Hf. by apply list_elem_of_fmap_2.
  - by apply IH.
Qed.

(** X15: when the nations list is loaded and no two of its entries have
    the same id, asking for the id of an entry gives back that entry; and
    an id is answered with 404 exactly when no entry of the list has it. *)
Theorem nation_found_by_its_id (nations : list record) n id :
  NoDup (id_fields "id" nations) ->
  n ∈ nations ->
  get n "id" = JS.VStr id ->
  Nations.get_all (Some nations) = Nations.Listed nations
  /\ Nations.get_one (Some nations) id = Nations.Found n
  /\ (forall id',
        Nations.get_one (Some nations) id'
        = Nations.Failed 404 "Nation not found"
            (DText ("Nation '" +:+ id' +:+ "' does not exist"))
        <-> forall m, m ∈ nations -> get m "id" ≠ JS.VStr id').
Proof.
  intros Hnd Hn Hid. split; [done|]. split.
  - unfold Nations.get_one.
    destruct (JS.find _ nations) as [m|] eqn:Hfind.
    + f_equal. apply find_first in Hfind as (before & after & Hl & Hm & _).
      apply strict_eq_VStr in Hm.
      apply (NoDup_fmap_same (fun i => get i "id") nations); [done| |done|congruence].
      rewrite Hl. apply elem_of_app. right. apply list_elem_of_here.
    + exfalso. pose proof (proj1 (find_None _ _) Hfind n Hn) as Hfalse. simpl in Hfalse.
      rewrite (proj2 (strict_eq_VStr _ _) Hid) in Hfalse. done.
  - intros id'. unfold Nations.get_one.
    destruct (JS.find _ nations) as [m|] eqn:Hfind.
    + split; [done|]. intros Hnone. exfalso.
      apply find_first in Hfind as (before & after & Hl & Hm & _).
      apply strict_eq_VStr in Hm. apply (Hnone m); [|done].
      rewrite Hl. apply elem_of_app. right. apply list_elem_of_here.
    + split; [|done]. intros _ m Hm Heq.
      pose proof (proj1 (find_None _ _) Hfind m Hm) as Hfalse. simpl in Hfalse.
      rewrite (proj2 (strict_eq_VStr _ _) Heq) in Hfalse. done.
Qed.

Lemma nation_found_by_its_id_witness :
  Nations.get_one (Some Fleet.nations) "germany" = Nations.Found Fleet.germany.
Proof.
  destruct (nation_found_by_its_id Fleet.nations Fleet.germany "germany")
    as (_ & Hone & _); [| |reflexivity|exact Hone].
  - assert (id_fields "id" Fleet.nations = [JS.VStr "usa"; JS.VStr "germany"])
      as -> by evaluate.
    apply NoDup_cons. split.
    + intros Hin. apply list_elem_of_singleton in Hin. discriminate.
    + apply NoDup_singleton.
  - apply elem_of_cons. right. apply list_elem_of_here.
Defined.

(** ** Overviews *)

Lemma typed_fields t (a : record) :
  get (Overview.typed t a) "type" = JS.VStr t
  /\ forall k, k ≠ "type" -> get (Overview.typed t a) k = get a k.
Proof.
  unfold get, Overview.typed. split; [by rewrite lookup_insert_eq|].
  intros k Hk. by rewrite lookup_insert_ne.
Qed.

Lemma flat_listed category (dataCache : vehicles) document :
  dataCache !! category = Some document ->
  mountCRUDForCategory.search category dataCache None = Some (Overview.flat document).
Proof. intros Hd. unfold mountCRUDForCategory.search. by rewrite Hd. Qed.

(** X16: with the aircraft and the helicopter documents loaded, the
    aviation overview lists the records of the two flattened lists, aircraft
    first, each with its type set to aircraft or helicopter in place of a type
    of its own and its other fields as they are; its total is the number of
    vehicles listed and the sum of the two counts, and each count is the total
    that the list of its category reports. *)
Theorem aviation_overview_stamps_types dataCache aircraft helicopters :
  dataCache !! "aircraft" = Some aircraft ->
  dataCache !! "helicopters" = Some helicopters ->
  exists a,
    Overview.aviation dataCache = Some a
    /\ Overview.aviation_total a = length (Overview.vehicles_listed a)
    /\ Overview.aviation_total a
       = (Overview.aircraft_count a + Overview.helicopter_count a)%nat
    /\ Z.of_nat (Overview.aircraft_count a)
       = page_total (mountCRUDForCategory.get_all "aircraft" dataCache None None None)
    /\ Z.of_nat (Overview.helicopter_count a)
       = page_total (mountCRUDForCategory.get_all "helicopters" dataCache None None None)
    /\ length (Overview.vehicles_listed a)
       = length (Overview.flat aircraft ++ Overview.flat helicopters)
    /\ (forall j r,
          (Overview.flat aircraft ++ Overview.flat helicopters) !! j = Some r ->
          exists v,
            Overview.vehicles_listed a !! j = Some v
            /\ get v "type"
               = JS.VStr (if (j <? Overview.aircraft_count a)%nat
                          then "aircraft" else "helicopter")
            /\ forall k, k ≠ "type" -> get v k = get r k).
Proof.
  intros Ha Hh. unfold Overview.aviation. rewrite Ha, Hh. cbv zeta.
  eexists. split; [reflexivity|]. cbn [Overview.aviation_total Overview.aircraft_count
    Overview.helicopter_count Overview.vehicles_listed].
  unfold mountCRUDForCategory.get_all.
  rewrite (flat_listed _ _ _ Ha), (flat_listed _ _ _ Hh).
  change (map ?f ?l) with (f <$> l). rewrite !length_fmap.
  split; [by rewrite length_app, !length_fmap|]. split; [done|].
  split; [done|]. split; [done|].
  split; [by rewrite !length_app, !length_fmap|].
  intros j r Hr.
  destruct (Nat.ltb_spec j (length (Overview.flat aircraft))) as [Hj|Hj].
  - rewrite lookup_app_l in Hr by done.
    exists (Overview.typed "aircraft" r). split.
    + rewrite lookup_app_l by (by rewrite length_fmap).
      by rewrite list_lookup_fmap, Hr.
    + apply typed_fields.
  - rewrite lookup_app_r in Hr by done.
    exists (Overview.typed "helicopter" r). split.
    + rewrite lookup_app_r by (by rewrite length_fmap).
      by rewrite list_lookup_fmap, length_fmap, Hr.
    + apply typed_fields.
Qed.

Lemma aviation_overview_stamps_types_witness :
  exists a,
    Overview.aviation Fleet.cache = Some a
    /\ exists v, Overview.vehicles_listed a !! 3%nat = Some v
                 /\ get Fleet.apache "type" = JS.VStr "attack"
                 /\ get v "type" = JS.VStr "helicopter"
                 /\ get v "name" = get Fleet.apache "name".
Proof.
  destruct (aviation_overview_stamps_types Fleet.cache Fixture.aircraft_document
              {[ "usa" := [Fleet.apache] ]} ltac:(evaluate) ltac:(evaluate))
    as (a & Hsome & _ & _ & Hcount & _ & _ & Hlisted).
  exists a. split; [exact Hsome|].
  destruct (Hlisted 3%nat Fleet.apache ltac:(evaluate)) as (v & Hv & Htype & Hrest).
  exists v. split; [exact Hv|]. split; [evaluate|].
  assert (Overview.aircraft_count a = 3%nat) as Hthree.
  { apply Nat2Z.inj. etrans; [exact Hcount|]. evaluate. }
  rewrite Hthree in Htype. split; [exact Htype|]. by apply Hrest.
Defined.

(** X17: with the five documents loaded, the overview of all vehicles
    carries the five flattened lists, the lists that the list endpoints page
    through; its total is the sum of its three group counts, each group count
    is the total of the overview of that group, and the group overviews list
    the same records, in the same order, with their types set. *)
Theorem all_overview_agrees_with_groups dataCache aircraft helicopters tanks
    bluewater coastal :
  dataCache !! "aircraft" = Some aircraft ->
  dataCache !! "helicopters" = Some helicopters ->
  dataCache !! "tanks" = Some tanks ->
  dataCache !! "bluewater" = Some bluewater ->
  dataCache !! "coastal" = Some coastal ->
  exists a av nv gr,
    Overview.all dataCache = Some a
    /\ Overview.aviation dataCache = Some av
    /\ Overview.naval dataCache = Some nv
    /\ Overview.ground dataCache = Some gr
    /\ Overview.all_total a
       = (Overview.aviation_count a + Overview.ground_count a + Overview.naval_count a)%nat
    /\ Overview.aviation_count a = Overview.aviation_total av
    /\ Overview.ground_count a = Overview.ground_total gr
    /\ Overview.naval_count a = Overview.naval_total nv
    /\ Overview.vehicles_listed av
       = map (Overview.typed "aircraft") (Overview.data_aircraft a)
         ++ map (Overview.typed "helicopter") (Overview.data_helicopters a)
    /\ Overview.tanks gr = Overview.data_tanks a
    /\ Overview.ships nv
       = map (Overview.typed "bluewater") (Overview.data_bluewater a)
         ++ map (Overview.typed "coastal") (Overview.data_coastal a)
    /\ mountCRUDForCategory.search "aircraft" dataCache None
       = Some (Overview.data_aircraft a)
    /\ mountCRUDForCategory.search "helicopters" dataCache None
       = Some (Overview.data_helicopters a)
    /\ mountCRUDForCategory.search "tanks" dataCache None = Some (Overview.data_tanks a)
    /\ mountCRUDForCategory.search "bluewater" dataCache None
       = Some (Overview.data_bluewater a)
    /\ mountCRUDForCategory.search "coastal" dataCache None
       = Some (Overview.data_coastal a).
Proof.
  intros Ha Hh Ht Hb Hc.
  unfold Overview.all, Overview.aviation, Overview.naval, Overview.ground.
  rewrite Ha, Hh, Ht, Hb, Hc. cbv zeta.
  do 4 eexists. do 4 (split; [reflexivity|]).
  cbn [Overview.all_total Overview.aviation_count Overview.ground_count
       Overview.naval_count Overview.aviation_total Overview.ground_total
       Overview.naval_total Overview.vehicles_listed Overview.tanks Overview.ships
       Overview.data_aircraft Overview.data_helicopters Overview.data_tanks
       Overview.data_bluewater Overview.data_coastal].
  rewrite !length_map.
  rewrite (flat_listed _ _ _ Ha), (flat_listed _ _ _ Hh), (flat_listed _ _ _ Ht),
    (flat_listed _ _ _ Hb), (flat_listed _ _ _ Hc).
  parts; try reflexivity. lia.
Qed.

Lemma all_overview_agrees_with_groups_witness :
  exists a av,
    Overview.all Fleet.cache = Some a
    /\ Overview.aviation Fleet.cache = Some av
    /\ Overview.aviation_count a = Overview.aviation_total av.
Proof.
  destruct (all_overview_agrees_with_groups Fleet.cache Fixture.aircraft_document
              {[ "usa" := [Fleet.apache] ]} {[ "usa" := [Fleet.sherman] ]} ∅ ∅
              ltac:(evaluate) ltac:(evaluate) ltac:(evaluate) ltac:(evaluate)
              ltac:(evaluate))
    as (a & av & nv & gr & Hall & Hav & _ & _ & _ & Hcount & _).
  exists a, av. exact (conj Hall (conj Hav Hcount)).
Defined.


(** ** Saving and loading *)

Lemma append_cons x (a b : string) : String x a +:+ b = String x (a +:+ b).
Proof. reflexivity. Qed.



Lemma append_tmp_ne (s : string) : s +:+ ".tmp" ≠ s.
Proof.
  induction s as [|x s IH]; [done|]. rewrite append_cons. intros [= H]. by apply IH.
Qed.



(** The file systems a save can leave. *)
Lemma saveJSON_cases {A} (stringify : A -> string) dirname fs filePath data o renames :
  let target := Store.fullPath dirname filePath in
  let temp := target +:+ ".tmp" in
  let r := Store.saveJSON stringify dirname fs filePath data o renames in
  (r.1 = true
   /\ r.2 = <[target := stringify data]>
              (base.delete temp (<[temp := stringify data]> fs)))
  \/ (r.1 = false /\ (r.2 = fs \/ exists text, r.2 = <[temp := text]> fs)).
Proof.
  intros target temp. unfold Store.saveJSON. fold target. fold temp.
  destruct o as [|[junk|]]; simpl.
  - unfold Store.rename. rewrite lookup_insert_eq. destruct renames; simpl.
    + by left.
    + right. split; [done|]. right. by eexists.
  - right. split; [done|]. right. by eexists.
  - right. by split; [|left].
Qed.

Lemma saved_files {A} (stringify : A -> string) dirname fs filePath data o renames :
  let target := Store.fullPath dirname filePath in
  let temp := target +:+ ".tmp" in
  let r := Store.saveJSON stringify dirname fs filePath data o renames in
  r.2 !! target = (if r.1 then Some (stringify data) else fs !! target)
  /\ (r.1 = true -> r.2 !! temp = None)
  /\ (forall p, p ≠ target -> p ≠ temp -> r.2 !! p = fs !! p).
Proof.
  intros target temp r.
  assert (temp ≠ target) as Hne by apply append_tmp_ne.
  destruct (saveJSON_cases stringify dirname fs filePath data o renames)
    as [[Hok Hfs]|[Hok [Hfs|[text Hfs]]]];
    fold target in Hok, Hfs; fold temp in Hfs; fold r in Hok, Hfs; rewrite Hok, Hfs.
  - split; [by rewrite lookup_insert_eq|]. split.
    + intros _. rewrite lookup_insert_ne by done. by rewrite lookup_delete_eq.
    + intros p Hp Hp'. rewrite lookup_insert_ne by done.
      rewrite lookup_delete_ne by done. by rewrite lookup_insert_ne.
  - done.
  - split; [by rewrite lookup_insert_ne|]. split; [done|].
    intros p Hp Hp'. by rewrite lookup_insert_ne.
Qed.

(** X19: a save is all or nothing for the file it is about: when it
    returns true the file holds the text of the data and no temporary file is
    left beside it; when it returns false the file holds what it held before,
    were it there or not; either way every file other than the file and its
    temporary file is as it was. *)
Theorem save_is_all_or_nothing {A} (stringify : A -> string) dirname fs filePath data
    o renames :
  let target := Store.fullPath dirname filePath in
  let temp := target +:+ ".tmp" in
  let r := Store.saveJSON stringify dirname fs filePath data o renames in
  (r.1 = true -> r.2 !! target = Some (stringify data) /\ r.2 !! temp = None)
  /\ (r.1 = false -> r.2 !! target = fs !! target)
  /\ (r.1 = true <-> o = Store.Written /\ renames = true)
  /\ (forall p, p ≠ target -> p ≠ temp -> r.2 !! p = fs !! p).
Proof.
  intros target temp r.
  destruct (saved_files stringify dirname fs filePath data o renames)
    as (Htarget & Htemp & Hrest).
  fold target in Htarget, Htemp, Hrest. fold temp in Htemp, Hrest.
  fold r in Htarget, Htemp, Hrest.
  split; [|split; [|split]]; [| | |done].
  - intros Hok. split; [|by apply Htemp]. by rewrite Htarget, Hok.
  - intros Hok. by rewrite Htarget, Hok.
  - subst r. unfold Store.saveJSON. fold target. fold temp.
    destruct o as [|[junk|]]; simpl.
    + unfold Store.rename. rewrite lookup_insert_eq.
      destruct renames; simpl; split; try done; by intros [_ ?].
    + split; [done|]. by intros [? _].
    + split; [done|]. by intros [? _].
Qed.

Lemma loaded_lookup category document (cache : vehicles) category' :
  Store.loaded category document cache !! category'
  = if decide (category' = category) then document else cache !! category'.
Proof.
  unfold Store.loaded. destruct (decide (category' = category)) as [->|Hne].
  - destruct document; [by rewrite lookup_insert_eq|by rewrite lookup_delete_eq].
  - destruct document; [by rewrite lookup_insert_ne|by rewrite lookup_delete_ne].
Qed.

Lemma filePath_cases category filePath :
  filePathForCategory !! category = Some filePath ->
  (category, filePath)
  ∈ [("aircraft", "data/vehicles/aviation/aircraft.json");
     ("helicopters", "data/vehicles/aviation/helicopters.json");
     ("tanks", "data/vehicles/ground/tanks.json");
     ("bluewater", "data/vehicles/naval/bluewater.json");
     ("coastal", "data/vehicles/naval/coastal.json")].
Proof. apply elem_of_list_to_map_2. Qed.

Lemma preloadData_lookup parse_nations parse dirname fs category :
  (Store.preloadData parse_nations parse dirname fs).2 !! category
  = filePathForCategory !! category ≫= Store.loadJSON parse dirname fs.
Proof.
  unfold Store.preloadData. cbn [snd]. rewrite !loaded_lookup, lookup_empty.
  destruct (decide (category = "coastal")) as [->|H5]; [done|].
  destruct (decide (category = "bluewater")) as [->|H4]; [done|].
  destruct (decide (category = "tanks")) as [->|H3]; [done|].
  destruct (decide (category = "helicopters")) as [->|H2]; [done|].
  destruct (decide (category = "aircraft")) as [->|H1]; [done|].
  destruct (filePathForCategory !! category) as [filePath|] eqn:Hpath; [|done].
  apply filePath_cases, list_elem_of_In in Hpath. simpl in Hpath.
  destruct Hpath as [[= <- <-]|[[= <- <-]|[[= <- <-]|[[= <- <-]|[[= <- <-]|[]]]]]]; done.
Qed.

(** X20: at startup the cache gets each category from the file that the
    handlers of the category save to: the entry of a category is what the
    file named by the table of file paths parses to, no entry when the file is
    missing or does not parse, and nothing outside the five mounted categories
    is loaded; the nations come from their own file. *)
Theorem startup_reads_what_saves_write parse_nations parse dirname fs :
  let loaded := Store.preloadData parse_nations parse dirname fs in
  loaded.1 = fs !! Store.fullPath dirname "data/nations/nations.json" ≫= parse_nations
  /\ (forall category filePath,
        filePathForCategory !! category = Some filePath ->
        loaded.2 !! category = fs !! Store.fullPath dirname filePath ≫= parse)
  /\ (forall category, is_Some (loaded.2 !! category) -> category ∈ mounted)
  /\ (forall category,
        category ∈ mounted <-> is_Some (filePathForCategory !! category)).
Proof.
  intros loaded. split; [done|].
  assert (forall category,
            category ∈ mounted <-> is_Some (filePathForCategory !! category)) as Hmounted.
  { intros category. split.
    - intros Hin. apply list_elem_of_In in Hin. simpl in Hin.
      destruct Hin as [<-|[<-|[<-|[<-|[<-|[]]]]]]; by eexists.
    - intros [filePath Hpath]. apply filePath_cases, list_elem_of_In in Hpath.
      simpl in Hpath. apply list_elem_of_In. simpl.
      destruct Hpath as [[= <- <-]|[[= <- <-]|[[= <- <-]|[[= <- <-]|[[= <- <-]|[]]]]]];
        tauto. }
  split; [|split; [|done]].
  - intros category filePath Hpath. subst loaded.
    by rewrite preloadData_lookup, Hpath.
  - intros category Hsome. apply Hmounted. subst loaded.
    rewrite preloadData_lookup in Hsome.
    destruct (filePathForCategory !! category); [by eexists|by destruct Hsome].
Qed.




(** ** Pages *)

(** X22: what a page holds.  The record at position j of the page of a
    list response is the record at position (page - 1) * limit + j of the
    filtered list, for the effective page and limit; every page before the
    last one is full, the last one holds the records that remain and at least
    one, and there are no pages exactly when the filtered list is empty. *)
Theorem page_holds_its_stretch (allItems : list record) page limit :
  let l := effective_limit limit in
  let p := effective_page page in
  let total := Z.of_nat (length allItems) in
  let totalPages := ceil_div total l in
  let items := page_items (Some (paginate allItems page limit)) in
  (forall j, (j < Z.to_nat l)%nat ->
     items !! j = allItems !! (Z.to_nat ((p - 1) * l) + j)%nat)
  /\ (forall j, (Z.to_nat l <= j)%nat -> items !! j = None)
  /\ (p < totalPages -> Z.of_nat (length items) = l)
  /\ (p = totalPages ->
      Z.of_nat (length items) = total - (totalPages - 1) * l
      /\ 1 <= Z.of_nat (length items))
  /\ (totalPages = 0 <-> allItems = []).
Proof.
  intros l p total totalPages items.
  pose proof (effective_limit_bounds limit) as Hl. fold l in Hl.
  pose proof (effective_page_bounds page) as Hp. fold p in Hp.
  pose proof (ceil_div_bounds total l ltac:(lia)) as Hpages. fold totalPages in Hpages.
  assert (items = take (Z.to_nat l) (drop (Z.to_nat ((p - 1) * l)) allItems)) as Hitems.
  { subst items. unfold paginate. cbn [page_items]. fold p. fold l.
    apply page_slice_chunk; lia. }
  assert (Z.of_nat (length items)
          = Z.min l (Z.max 0 (total - (p - 1) * l))) as Hlen.
  { rewrite Hitems, length_take, length_drop. subst total. nia. }
  split; [|split; [|split; [|split]]].
  - intros j Hj. rewrite Hitems. rewrite lookup_take_lt by done. by rewrite lookup_drop.
  - intros j Hj. rewrite Hitems. apply lookup_take_ge. done.
  - intros Hlt. nia.
  - intros Heq. nia.
  - split.
    + intros Hzero. apply length_zero_iff_nil. subst total. nia.
    + intros ->. subst total. simpl in Hpages. nia.
Qed.


(** ** The aircraft routes and the route factory *)

Lemma validateAircraftData_generic data isUpdate :
  Aircraft.validateAircraftData data isUpdate
  = validateGenericData "aircraft" data isUpdate.
Proof. reflexivity. Qed.

(** X25: on every request, updating and deleting through the aircraft
    routes of the earlier server leave the cache that the route factory
    mounted for aircraft leaves, and answer with the same status; an accepted
    update and one turned down by the validator answer with the same body,
    as does an accepted delete.  When the aircraft document is loaded, listing
    a nation answers alike, and getting a record answers with the same status
    and, when the record is found, the same body; when it is not loaded,
    getting a record answers 404 through the aircraft routes and 500 through
    the factory. *)
Theorem aircraft_routes_match_factory dataCache nation identifier changes saved :
  let a_patch := Aircraft.patch dataCache nation identifier changes saved in
  let g_patch :=
    mountCRUDForCategory.patch "aircraft" dataCache nation identifier changes saved in
  let a_delete := Aircraft.delete dataCache nation identifier saved in
  let g_delete := mountCRUDForCategory.delete "aircraft" dataCache nation identifier saved in
  (a_patch.2 = g_patch.2
   /\ status a_patch.1 = status g_patch.1
   /\ (status a_patch.1 = 200 \/ status a_patch.1 = 400 -> a_patch.1 = g_patch.1))
  /\ (a_delete.2 = g_delete.2
      /\ status a_delete.1 = status g_delete.1
      /\ (status a_delete.1 = 204 -> a_delete.1 = g_delete.1))
  /\ status (Aircraft.get_by_nation dataCache nation)
     = status (mountCRUDForCategory.get_by_nation "aircraft" dataCache nation)
  /\ (is_Some (dataCache !! "aircraft") ->
      Aircraft.get_by_nation dataCache nation
      = mountCRUDForCategory.get_by_nation "aircraft" dataCache nation
      /\ status (Aircraft.get_one dataCache nation identifier)
         = status (mountCRUDForCategory.get_one "aircraft" dataCache nation identifier)
      /\ (status (Aircraft.get_one dataCache nation identifier) = 200 ->
          Aircraft.get_one dataCache nation identifier
          = mountCRUDForCategory.get_one "aircraft" dataCache nation identifier))
  /\ (dataCache !! "aircraft" = None ->
      status (Aircraft.get_one dataCache nation identifier) = 404
      /\ status (mountCRUDForCategory.get_one "aircraft" dataCache nation identifier)
         = 500).
Proof.
  cbv zeta.
  unfold Aircraft.patch, mountCRUDForCategory.patch, Aircraft.delete,
    mountCRUDForCategory.delete, Aircraft.get_by_nation,
    mountCRUDForCategory.get_by_nation, Aircraft.get_one, mountCRUDForCategory.get_one.
  change Aircraft.category with "aircraft".
  change (idField_of "aircraft") with "aircraftid".
  rewrite validateAircraftData_generic.
  destruct (dataCache !! "aircraft") as [collection|] eqn:Hc; cbn [mbind option_bind].
  2:{ parts; try done. }
  destruct (collection !! nation) as [items|] eqn:Hn; cbn [fmap option_fmap option_map].
  2:{ parts; try done. }
  split; [|split; [|split; [|split]]].
  - destruct (0 <? length (validateGenericData "aircraft" changes true))%nat; [done|].
    destruct (JS.findIndex _ items); [|by parts; [..|intros [|]]].
    destruct saved; by parts; [..|intros [|]].
  - destruct (JS.findIndex _ items); [|done]. by destruct saved.
  - done.
  - intros _. split; [done|]. by destruct (JS.find _ items).
  - done.
Qed.

(** ** Reading after an update *)

Lemma findIndex_by_answers {A} (f : A -> bool) (l l' : list A) :
  f <$> l = f <$> l' -> JS.findIndex f l = JS.findIndex f l'.
Proof.
  revert l'. induction l as [|a l IH]; intros [|a' l'] Heq; try done.
  rewrite !fmap_cons in Heq. injection Heq as Ha Hl. simpl. rewrite <- Ha.
  destruct (f a); [done|]. by rewrite (IH l' Hl).
Qed.

Lemma updated_twice idField (old changes : record) :
  mountCRUDForCategory.updated idField
    (mountCRUDForCategory.updated idField old changes) changes
  = mountCRUDForCategory.updated idField old changes.
Proof.
  destruct (updated_fields idField old changes) as (Hid & Hnation & Hfield & Hrest).
  cbv zeta in Hid, Hnation, Hfield, Hrest.
  unfold mountCRUDForCategory.updated at 1. rewrite Hid, Hnation, Hfield.
  apply map_eq. intros k.
  destruct (decide (k = idField)) as [->|Hk1].
  { unfold mountCRUDForCategory.updated. by rewrite !lookup_insert_eq. }
  rewrite lookup_insert_ne by done.
  destruct (decide (k = "nation")) as [->|Hk2].
  { unfold mountCRUDForCategory.updated. rewrite lookup_insert_eq.
    rewrite lookup_insert_ne by done. by rewrite lookup_insert_eq. }
  rewrite lookup_insert_ne by done.
  destruct (decide (k = "id")) as [->|Hk3].
  { unfold mountCRUDForCategory.updated. rewrite lookup_insert_eq.
    rewrite lookup_insert_ne by done. rewrite lookup_insert_ne by done.
    by rewrite lookup_insert_eq. }
  rewrite lookup_insert_ne by done.
  rewrite lookup_union, !Hrest by done.
  by destruct (changes !! k), (old !! k).
Qed.

(** X26: after an update is saved, a get with the same identifier returns
    the updated record, and sending the same update once more gives the same
    answer and leaves the cache as the first one left it.  In the updated
    record every field of the body other than the id, the nation and the id
    field has the value the body gave, and every other field the value it
    had. *)
Theorem update_then_get_and_repeat category dataCache collection nation items identifier
    changes index old :
  dataCache !! category = Some collection ->
  collection !! nation = Some items ->
  validateGenericData category changes true = [] ->
  JS.findIndex (resolves (idField_of category) identifier) items = Some index ->
  items !! index = Some old ->
  let first := mountCRUDForCategory.patch category dataCache nation identifier changes true in
  let item := mountCRUDForCategory.updated (idField_of category) old changes in
  first.1 = Response 200 (PItem item)
  /\ mountCRUDForCategory.get_one category first.2 nation identifier
     = Response 200 (PItem item)
  /\ mountCRUDForCategory.patch category first.2 nation identifier changes true = first
  /\ (forall k, k ≠ "id" -> k ≠ "nation" -> k ≠ idField_of category ->
      item !! k = match changes !! k with Some v => Some v | None => old !! k end)
  /\ get item "id" = get old "id"
  /\ get item "nation" = get old "nation"
  /\ get item (idField_of category) = get old (idField_of category).
Proof.
  intros Hc Hn Hvalid Hindex Hold first item.
  destruct (updated_fields (idField_of category) old changes)
    as (Hid & Hnation & Hfield & Hrest).
  fold item in Hid, Hnation, Hfield, Hrest.
  pose proof (lookup_lt_Some _ _ _ Hold) as Hlt.
  set (written := <[index := item]> items).
  assert (first
          = (Response 200 (PItem item),
             <[category := <[nation := written]> collection]> dataCache)) as Hfirst.
  { subst first. unfold mountCRUDForCategory.patch. rewrite Hc. simpl. rewrite Hn. simpl.
    rewrite Hvalid. simpl. by rewrite Hindex, Hold. }
  assert (JS.findIndex (resolves (idField_of category) identifier) written = Some index)
    as Hindex'.
  { rewrite <- Hindex. apply findIndex_by_answers. subst written.
    rewrite list_fmap_insert. apply list_insert_id.
    rewrite list_lookup_fmap, Hold. simpl. f_equal. unfold resolves.
    by rewrite Hid, Hfield. }
  assert (written !! index = Some item) as Hitem
    by (by apply list_lookup_insert_eq).
  rewrite Hfirst. cbn [fst snd].
  split; [done|]. split; [|split; [|done]].
  - unfold mountCRUDForCategory.get_one. rewrite lookup_insert_eq.
    rewrite lookup_insert_eq. rewrite find_findIndex, Hindex'. simpl. by rewrite Hitem.
  - unfold mountCRUDForCategory.patch. rewrite lookup_insert_eq. simpl.
    rewrite lookup_insert_eq. simpl. rewrite Hvalid. simpl. rewrite Hindex', Hitem. simpl.
    fold item. subst item. rewrite updated_twice.
    subst written. rewrite list_insert_insert_eq.
    by rewrite !insert_insert_eq.
Qed.

Lemma update_then_get_and_repeat_witness :
  mountCRUDForCategory.get_one "aircraft"
    (mountCRUDForCategory.patch "aircraft" Fixture.cache "usa" "2" Fixture.rekey true).2
    "usa" "2"
  = Response 200 (PItem (mountCRUDForCategory.updated "aircraftid" Fixture.p51 Fixture.rekey)).
Proof.
  destruct (update_then_get_and_repeat "aircraft" Fixture.cache Fixture.aircraft_document
              "usa" [Fixture.p26; Fixture.p51] "2" Fixture.rekey 1%nat Fixture.p51
              ltac:(reflexivity) ltac:(reflexivity) ltac:(evaluate) ltac:(evaluate)
              ltac:(reflexivity))
    as (_ & Hget & _).
  exact Hget.
Defined.
